(** * Profile routes (routes/api/profile.js): a shallow embedding

    The Express router of [routes/api/profile.js] is modelled as a set of
    handlers running in a small state-and-exception monad over the
    [Profile] collection.  JavaScript strings are [string]s whose characters
    stand for code units; [undefined] request fields are [None].  A request
    is its body together with the other places express-validator reads
    (cookies, headers, route parameters and query string). *)

From Stdlib Require Import String Ascii List Bool Arith Lia.
Import ListNotations.
Open Scope string_scope.
Open Scope list_scope.

(** ** JavaScript string primitives used by the handlers *)

Module JS.

(** White space in the sense of [String.prototype.trim], restricted to the
    code units an [ascii] can hold: TAB, LF, VT, FF, CR, SP and NBSP. *)
Definition is_ws (c : ascii) : bool :=
  let n := nat_of_ascii c in
  ((9 <=? n)%nat && (n <=? 13)%nat) || (n =? 32)%nat || (n =? 160)%nat.

Fixpoint trimStart (s : string) : string :=
  match s with
  | EmptyString => EmptyString
  | String c r => if is_ws c then trimStart r else s
  end.

Fixpoint trimEnd (s : string) : string :=
  match s with
  | EmptyString => EmptyString
  | String c r =>
      match trimEnd r with
      | EmptyString => if is_ws c then EmptyString else String c EmptyString
      | r' => String c r'
      end
  end.

(** [s.trim()] *)
Definition trim (s : string) : string := trimEnd (trimStart s).

(** [s.split(sep)] for a one-character separator: never the empty list,
    [split sep ""] is [[""]]. *)
Fixpoint split (sep : ascii) (s : string) : list string :=
  match s with
  | EmptyString => [EmptyString]
  | String c r =>
      if Ascii.eqb c sep then EmptyString :: split sep r
      else match split sep r with
           | h :: t => String c h :: t
           | [] => [String c EmptyString]
           end
  end.

(** [l.join(sep)] *)
Fixpoint join (sep : ascii) (l : list string) : string :=
  match l with
  | [] => EmptyString
  | [x] => x
  | x :: t => x ++ String sep (join sep t)
  end.

(** [a < b] on two strings: code units compared left to right, a proper
    prefix being smaller. *)
Fixpoint lt (a b : string) : bool :=
  match a, b with
  | _, EmptyString => false
  | EmptyString, String _ _ => true
  | String x a', String y b' =>
      if (nat_of_ascii x <? nat_of_ascii y)%nat then true
      else if (nat_of_ascii y <? nat_of_ascii x)%nat then false
      else lt a' b'
  end.

(** Truthiness of a possibly-undefined string: [undefined] and [""] are
    falsy. *)
Definition truthy (v : option string) : bool :=
  match v with
  | Some (String _ _) => true
  | _ => false
  end.

(** All characters of a string are white space. *)
Fixpoint all_ws (s : string) : bool :=
  match s with
  | EmptyString => true
  | String c r => is_ws c && all_ws r
  end.

Definition first_char (s : string) : option ascii :=
  match s with
  | EmptyString => None
  | String c _ => Some c
  end.

Fixpoint last_char (s : string) : option ascii :=
  match s with
  | EmptyString => None
  | String c EmptyString => Some c
  | String _ r => last_char r
  end.

(** Neither the first nor the last character is white space. *)
Definition trimmed (s : string) : bool :=
  match first_char s, last_char s with
  | Some a, Some b => negb (is_ws a) && negb (is_ws b)
  | _, _ => true
  end.

Fixpoint contains (c : ascii) (s : string) : bool :=
  match s with
  | EmptyString => false
  | String x r => Ascii.eqb x c || contains c r
  end.

End JS.

(** ** Data model: the Profile document and its sub-documents

    The Mongoose schema ([models/Profile]) is not part of the sources at
    hand; documents carry the fields the handlers read and write, stored as
    the handlers pass them (no casting, defaults or schema validation).
    [None] stands for an absent ([undefined] or [null]) value. *)

Definition Id := string.
Definition field := option string.

Record Experience := mkExperience {
  exp_id : Id;
  exp_title : field;
  exp_company : field;
  exp_location : field;
  exp_from : field;
  exp_to : field;
  exp_current : option bool;
  exp_description : field
}.

Record Education := mkEducation {
  edu_id : Id;
  edu_school : field;
  edu_degree : field;
  edu_fieldofstudy : field;
  edu_from : field;
  edu_to : field;
  edu_current : option bool;
  edu_description : field
}.

Record Social := mkSocial {
  youtube : field;
  twitter : field;
  instagram : field;
  linkedin : field;
  facebook : field
}.

Record Profile := mkProfile {
  _id : Id;
  user : Id;
  company : field;
  website : field;
  location : field;
  status : field;
  skills : list string;
  bio : field;
  githubusername : field;
  social : Social;
  experience : list Experience;
  education : list Education
}.

(** A user as the reads of a profile join it: [populate("user", ["name",
    "avatar"])] keeps the identifier, the name and the avatar. *)
Record User := mkUser {
  user_id : Id;
  name : string;
  avatar : string
}.

(** A profile whose [user] field has been populated: the owner's identifier
    is replaced by the user document stored under it, [null] when there is
    none. *)
Record Populated := mkPopulated {
  doc : Profile;
  owner : option User
}.

(** [.populate("user", ["name", "avatar"])] *)
Definition populate (users : list User) (p : Profile) : Populated :=
  mkPopulated p (find (fun u => String.eqb (user_id u) (user p)) users).

(** Sub-documents are keyed by their generated [_id]. *)
Class SubDoc (E : Type) := doc_id : E -> Id.
#[export] Instance Experience_SubDoc : SubDoc Experience := exp_id.
#[export] Instance Education_SubDoc : SubDoc Education := edu_id.

(** [list.unshift(x)] *)
Definition unshift {A : Type} (x : A) (l : list A) : list A := x :: l.

(** [list.filter((e) => e._id.toString() !== id)] *)
Definition removeByID {E : Type} `{SubDoc E} (id : Id) (l : list E) : list E :=
  filter (fun e => negb (String.eqb (doc_id e) id)) l.

Definition has_id {E : Type} `{SubDoc E} (id : Id) (l : list E) : bool :=
  existsb (fun e => String.eqb (doc_id e) id) l.

(** ** Request bodies *)

(** [req.body.skills] is either an array of strings or one string. *)
Inductive skills_input :=
| SkillsArray (l : list string)
| SkillsString (s : string).

Record ProfileBody := mkProfileBody {
  b_company : field;
  b_website : field;
  b_location : field;
  b_status : field;
  b_skills : option skills_input;
  b_bio : field;
  b_githubusername : field;
  b_youtube : field;
  b_twitter : field;
  b_instagram : field;
  b_linkedin : field;
  b_facebook : field
}.

Record ExperienceBody := mkExperienceBody {
  xb_title : field;
  xb_company : field;
  xb_location : field;
  xb_from : field;
  xb_to : field;
  xb_current : option bool;
  xb_description : field
}.

Record EducationBody := mkEducationBody {
  eb_school : field;
  eb_degree : field;
  eb_fieldofstudy : field;
  eb_from : field;
  eb_to : field;
  eb_current : option bool;
  eb_description : field
}.

(** The places of a request, other than the body, in which
    express-validator's [check] looks a field up, in its order: [req.cookies],
    [req.headers], [req.params] and [req.query].  Values there are strings. *)
Record Elsewhere := mkElsewhere {
  cookies : string -> field;
  headers : string -> field;
  params : string -> field;
  query : string -> field
}.

(** A request that carries its fields in the body only. *)
Definition nowhere : Elsewhere :=
  mkElsewhere (fun _ => None) (fun _ => None) (fun _ => None) (fun _ => None).

Definition located (el : Elsewhere) (name : string) : list field :=
  [cookies el name; headers el name; params el name; query el name].

Definition defined {A : Type} (v : option A) : bool :=
  match v with
  | Some _ => true
  | None => false
  end.

(** The values a chain built by [check(name)] validates: the field's value
    in every place that defines it, the body first; when no place defines
    it, the one undefined value of the body. *)
Definition instances {A : Type} (in_body : option A) (others : list (option A))
  : list (option A) :=
  match filter defined (in_body :: others) with
  | [] => [None]
  | found => found
  end.

(** ** Responses and exceptions *)

(** What the repository service does with a request: no reply at all, or
    a reply with a status and a body. *)
Inductive reply :=
| NoReply
| Reply (status : nat) (body : string).

(** Why [axios.get] rejects: no reply, or a status outside 200..299. *)
Inductive axios_failure :=
| NetworkError
| BadStatus (status : nat).

Inductive exn :=
| TypeError (msg : string)
| CastError (value : string)
| AxiosError (why : axios_failure)
| LibError (msg : string).

(** The JSON relayed from the repository service, kept as text. *)
Definition RepoData := string.

Inductive payload :=
| JProfile (p : option Profile)
| JPopulated (p : Populated)
| JErrors (msgs : list string)
| JMsg (msg : string)
| JData (d : RepoData)
| Text (s : string).

Record response := mkResponse { code : nat; sent : payload }.

(** [res.status(c).json(x)] and [res.status(c).send(s)]; [res.json] alone
    answers 200. *)
Definition json (c : nat) (x : payload) : response := mkResponse c x.
Definition send (c : nat) (s : string) : response := mkResponse c (Text s).

Inductive result (A : Type) :=
| Ok (a : A)
| Throw (e : exn).
Arguments Ok {A} a.
Arguments Throw {A} e.

Definition and_then {A B : Type} (r : result A) (k : A -> result B) : result B :=
  match r with
  | Ok a => k a
  | Throw e => Throw e
  end.

Declare Scope result_scope.
Delimit Scope result_scope with result.
Notation "x <- r ;; k" := (and_then r (fun x => k))
  (at level 61, r at next level, right associativity) : result_scope.

(** ** The handler monad: the [Profile] collection threaded through a
    computation that may throw.  Writes made before a throw stay.  A handler
    ends with [Ok r] when it sends the response [r] and with [Throw e] when
    [e] leaves it uncaught.  The collection operations themselves do not
    fail here. *)

Definition DB := list Profile.
Definition Handler (A : Type) := DB -> result A * DB.

Definition ret {A : Type} (a : A) : Handler A := fun db => (Ok a, db).
Definition throw {A : Type} (e : exn) : Handler A := fun db => (Throw e, db).
Definition bind {A B : Type} (m : Handler A) (k : A -> Handler B) : Handler B :=
  fun db => match m db with
            | (Ok a, db') => k a db'
            | (Throw e, db') => (Throw e, db')
            end.
Definition lift {A : Type} (r : result A) : Handler A := fun db => (r, db).
Definition try_catch {A : Type} (m : Handler A) (h : exn -> Handler A) : Handler A :=
  fun db => match m db with
            | (Ok a, db') => (Ok a, db')
            | (Throw e, db') => h e db'
            end.

Declare Scope handler_scope.
Delimit Scope handler_scope with handler.
Notation "x <- m ;; k" := (bind m (fun x => k))
  (at level 61, m at next level, right associativity) : handler_scope.
Notation "m ;;; k" := (bind m (fun _ => k))
  (at level 61, right associativity) : handler_scope.

(** Reading a property of a value that may be [null]. *)
Definition deref {A : Type} (what : string) (o : option A) : Handler A :=
  match o with
  | Some a => ret a
  | None => throw (TypeError ("Cannot read property '" ++ what ++ "' of null"))
  end.

(** ** Collection operations *)

(** [Profile.findOne({ user: u })] *)
Definition Profile_findOne (u : Id) : Handler (option Profile) :=
  fun db => (Ok (find (fun p => String.eqb (user p) u) db), db).

(** [Profile.findOne({ user: u }).populate("user", ["name", "avatar"])] *)
Definition Profile_findOne_populate (users : list User) (u : Id)
  : Handler (option Populated) :=
  fun db =>
    (Ok (option_map (populate users) (find (fun p => String.eqb (user p) u) db)),
     db).

(** [doc.save()]: the stored document with the same [_id] is replaced. *)
Fixpoint replace_doc (p : Profile) (db : DB) : DB :=
  match db with
  | [] => []
  | q :: r => if String.eqb (_id q) (_id p) then p :: r else q :: replace_doc p r
  end.

Definition Profile_save (p : Profile) : Handler unit :=
  fun db => (Ok tt, replace_doc p db).

(** Update the first document satisfying [sel]; [None] when there is none. *)
Fixpoint update_first (sel : Profile -> bool) (upd : Profile -> Profile) (db : DB)
  : option (Profile * DB) :=
  match db with
  | [] => None
  | q :: r =>
      if sel q then Some (upd q, upd q :: r)
      else match update_first sel upd r with
           | Some (p, r') => Some (p, q :: r')
           | None => None
           end
  end.

(** ** Validation chains (express-validator) *)

(** [isEmpty] on a field: an absent value is validated as [""]. *)
Definition isEmpty (v : field) : bool :=
  match v with
  | Some (String _ _) => false
  | _ => true
  end.

(** [.not().isEmpty()] on one value of the field *)
Definition check_notEmpty (v : field) (msg : string) : list string :=
  if isEmpty v then [msg] else [].

(** One validator of a chain, run on every value the chain validates. *)
Definition on_each {A : Type} (values : list A) (check : A -> list string)
  : list string :=
  flat_map check values.

(** [value < req.body.to] with [value] possibly [undefined]: a comparison
    with [undefined] is false. *)
Definition js_lt (a b : field) : bool :=
  match a, b with
  | Some x, Some y => JS.lt x y
  | _, _ => false
  end.

(** [.custom((value, { req }) => (req.body.to ? value < req.body.to : true))] *)
Definition from_before_to (value to : field) : bool :=
  if JS.truthy to then js_lt value to else true.

Definition check_custom (ok : bool) (msg : string) : list string :=
  if ok then [] else [msg].

Definition from_msg : string :=
  "From date is required and needs to be from the past".

(** The chains of PUT api/profile/experience.  The custom validator gets
    each value of [from] and compares it with the [to] of the body. *)
Definition validate_experience (el : Elsewhere) (b : ExperienceBody)
  : list string :=
  on_each (instances (xb_title b) (located el "title"))
    (fun v => check_notEmpty v "Title is required")
  ++ on_each (instances (xb_company b) (located el "company"))
       (fun v => check_notEmpty v "Company is required")
  ++ on_each (instances (xb_from b) (located el "from"))
       (fun v => check_notEmpty v from_msg)
  ++ on_each (instances (xb_from b) (located el "from"))
       (fun v => check_custom (from_before_to v (xb_to b)) from_msg).

(** The chains of PUT api/profile/education. *)
Definition validate_education (el : Elsewhere) (b : EducationBody)
  : list string :=
  on_each (instances (eb_school b) (located el "school"))
    (fun v => check_notEmpty v "School is required")
  ++ on_each (instances (eb_degree b) (located el "degree"))
       (fun v => check_notEmpty v "Degree is required")
  ++ on_each (instances (eb_fieldofstudy b) (located el "fieldofstudy"))
       (fun v => check_notEmpty v "Field of study is required")
  ++ on_each (instances (eb_from b) (located el "from"))
       (fun v => check_notEmpty v from_msg)
  ++ on_each (instances (eb_from b) (located el "from"))
       (fun v => check_custom (from_before_to v (eb_to b)) from_msg).

(** ** Sub-document helpers of the handlers *)

Definition newExp (id : Id) (b : ExperienceBody) : Experience :=
  {| exp_id := id;
     exp_title := xb_title b;
     exp_company := xb_company b;
     exp_location := xb_location b;
     exp_from := xb_from b;
     exp_to := xb_to b;
     exp_current := xb_current b;
     exp_description := xb_description b |}.

Definition newEdu (id : Id) (b : EducationBody) : Education :=
  {| edu_id := id;
     edu_school := eb_school b;
     edu_degree := eb_degree b;
     edu_fieldofstudy := eb_fieldofstudy b;
     edu_from := eb_from b;
     edu_to := eb_to b;
     edu_current := eb_current b;
     edu_description := eb_description b |}.

Definition set_experience (p : Profile) (l : list Experience) : Profile :=
  {| _id := _id p; user := user p; company := company p; website := website p;
     location := location p; status := status p; skills := skills p;
     bio := bio p; githubusername := githubusername p; social := social p;
     experience := l; education := education p |}.

Definition set_education (p : Profile) (l : list Education) : Profile :=
  {| _id := _id p; user := user p; company := company p; website := website p;
     location := location p; status := status p; skills := skills p;
     bio := bio p; githubusername := githubusername p; social := social p;
     experience := experience p; education := l |}.

(** The [$set] of ["experience.$.<field>"] for the seven fields of the
    body: every field of the entry except its [_id] takes the body's value. *)
Definition patch_experience (b : ExperienceBody) (e : Experience) : Experience :=
  {| exp_id := exp_id e;
     exp_title := xb_title b;
     exp_company := xb_company b;
     exp_location := xb_location b;
     exp_from := xb_from b;
     exp_to := xb_to b;
     exp_current := xb_current b;
     exp_description := xb_description b |}.

(** The positional [$]: the first array element matched by the query. *)
Fixpoint update_entry (id : Id) (g : Experience -> Experience)
  (l : list Experience) : list Experience :=
  match l with
  | [] => []
  | e :: r => if String.eqb (exp_id e) id then g e :: r
              else e :: update_entry id g r
  end.

(** ** The fields written by an upsert *)

Record ProfileFields := mkProfileFields {
  pf_user : Id;
  pf_company : field;
  pf_location : field;
  pf_website : string;
  pf_bio : field;
  pf_skills : list string;
  pf_status : field;
  pf_githubusername : field;
  pf_social : Social
}.

(** [{ $set: profileFields }] on an existing document. *)
Definition set_fields (f : ProfileFields) (p : Profile) : Profile :=
  {| _id := _id p; user := pf_user f; company := pf_company f;
     website := Some (pf_website f); location := pf_location f;
     status := pf_status f; skills := pf_skills f; bio := pf_bio f;
     githubusername := pf_githubusername f; social := pf_social f;
     experience := experience p; education := education p |}.

(** The document an upsert inserts when no document matches. *)
Definition new_profile (fresh : Id) (f : ProfileFields) : Profile :=
  {| _id := fresh; user := pf_user f; company := pf_company f;
     website := Some (pf_website f); location := pf_location f;
     status := pf_status f; skills := pf_skills f; bio := pf_bio f;
     githubusername := pf_githubusername f; social := pf_social f;
     experience := []; education := [] |}.

(** [Profile.findOneAndUpdate({ user: u }, { $set: f }, { new: true, upsert: true })] *)
Definition Profile_upsert (u : Id) (f : ProfileFields) (fresh : Id) : Handler Profile :=
  fun db =>
    match update_first (fun p => String.eqb (user p) u) (set_fields f) db with
    | Some (p, db') => (Ok p, db')
    | None => let p := new_profile fresh f in (Ok p, db ++ [p])
    end.

(** [skills.split(",").map((skill) => " " + skill.trim())] *)
Definition split_skills (s : string) : list string :=
  map (fun skill => (" " ++ JS.trim skill)%string) (JS.split "," s).

(** [Array.isArray(skills) ? skills : skills.split(",").map(...)] *)
Definition skills_field (s : option skills_input) : result (list string) :=
  match s with
  | Some (SkillsArray l) => Ok l
  | Some (SkillsString s) => Ok (split_skills s)
  | None => Throw (TypeError "Cannot read property 'split' of undefined")
  end.

(** The address of the template literal in GET api/profile/github/:username,
    before [encodeURI]. *)
Definition repos_address (username clientId secret : string) : string :=
  ("https://api.github.com/users/" ++ username
   ++ "/repos?per_page=5&sort=created:asc&client_id=" ++ clientId
   ++ "&client_secret=" ++ secret)%string.

(** ** The route handlers *)

Section Routes.

(** Library calls of the handlers, taken as parameters:
    [normalize(url, { forceHttps: true })] of normalize-url on a string;
    the number of errors [.not().isEmpty()] records for an array value;
    [mongoose.Types.ObjectId.isValid]; [config.get]; [encodeURI]; and the
    repository service as a request to an address finds it. *)
Variable normalize : string -> result string.
Variable notEmpty_array : list string -> nat.
Variable ObjectId_isValid : string -> bool.
Variable config_get : string -> result string.
Variable encodeURI : string -> result string.
Variable http_get : string -> reply.

Local Open Scope handler_scope.

(** [axios.get(uri, { headers })] returning the response's [data]: the
    promise is rejected when there is no reply or when the status is outside
    200..299; otherwise it resolves with the body, parsed when it is JSON
    and as the text it is when it is not (here the text in both cases). *)
Definition axios_get (uri : string) : result RepoData :=
  match http_get uri with
  | NoReply => Throw (AxiosError NetworkError)
  | Reply status body =>
      if ((200 <=? status) && (status <? 300))%nat then Ok body
      else Throw (AxiosError (BadStatus status))
  end.

(** normalize-url starts by trimming its argument, so that a call on
    [undefined] throws a [TypeError]. *)
Definition normalize_value (v : field) : result string :=
  match v with
  | Some s => normalize s
  | None => Throw (TypeError "Cannot read property 'trim' of undefined")
  end.

(** [website === "" ? "" : normalize(website, { forceHttps: true })] *)
Definition website_field (w : field) : result string :=
  match w with
  | Some EmptyString => Ok EmptyString
  | _ => normalize_value w
  end.

(** [if (value && value.length > 0) socialfields[key] = normalize(value, ...)] *)
Definition social_field (v : field) : result field :=
  if JS.truthy v then
    match normalize_value v with
    | Ok u => Ok (Some u)
    | Throw e => Throw e
    end
  else Ok v.

(** [.not().isEmpty()] on one value of [skills] *)
Definition check_skills (v : option skills_input) : list string :=
  match v with
  | Some (SkillsArray l) => repeat "Skills is required" (notEmpty_array l)
  | Some (SkillsString s) => check_notEmpty (Some s) "Skills is required"
  | None => check_notEmpty None "Skills is required"
  end.

(** The chains of POST api/profile. *)
Definition validate_profile (el : Elsewhere) (b : ProfileBody) : list string :=
  on_each (instances (b_status b) (located el "status"))
    (fun v => check_notEmpty v "Status is required")
  ++ on_each (instances (b_skills b)
                (map (option_map SkillsString) (located el "skills")))
       check_skills.

(** The statements of POST api/profile between the validation and the
    [try] block: the [profileFields] literal, whose properties are
    evaluated in order, then the loop over the social links. *)
Definition build_profileFields (uid : Id) (body : ProfileBody)
  : result ProfileFields :=
  (website' <- website_field (b_website body) ;;
   skills' <- skills_field (b_skills body) ;;
   youtube' <- social_field (b_youtube body) ;;
   twitter' <- social_field (b_twitter body) ;;
   instagram' <- social_field (b_instagram body) ;;
   linkedin' <- social_field (b_linkedin body) ;;
   facebook' <- social_field (b_facebook body) ;;
   Ok {| pf_user := uid;
         pf_company := b_company body;
         pf_location := b_location body;
         pf_website := website';
         pf_bio := b_bio body;
         pf_skills := skills';
         pf_status := b_status body;
         pf_githubusername := b_githubusername body;
         pf_social :=
           mkSocial youtube' twitter' instagram' linkedin' facebook' |})%result.

(** GET api/profile/me; [users] is the User collection the join reads. *)
Definition get_me (users : list User) (uid : Id) : Handler response :=
  try_catch
    (profile <- Profile_findOne_populate users uid ;;
     match profile with
     | None => ret (json 400 (JErrors ["There is no profile for this user"]))
     | Some p => ret (json 200 (JPopulated p))
     end)
    (fun err => ret (send 500 "Server Error")).

(** POST api/profile; [el] is the rest of the request, read by the
    validation only. *)
Definition post_profile (el : Elsewhere) (uid : Id) (body : ProfileBody)
  (fresh : Id) : Handler response :=
  match validate_profile el body with
  | (_ :: _) as errors => ret (json 400 (JErrors errors))
  | [] =>
      profileFields <- lift (build_profileFields uid body) ;;
      try_catch
        (profile <- Profile_upsert uid profileFields fresh ;;
         ret (json 200 (JProfile (Some profile))))
        (fun err => ret (send 500 "Server Error"))
  end.

(** GET api/profile/user/:user_id *)
Definition get_user (users : list User) (user_id : Id) : Handler response :=
  if negb (ObjectId_isValid user_id) then ret (json 400 (JMsg "Invalid user ID"))
  else
    try_catch
      (profile <- Profile_findOne_populate users user_id ;;
       match profile with
       | None => ret (json 400 (JMsg "Profile not found"))
       | Some p => ret (json 200 (JPopulated p))
       end)
      (fun err => ret (json 500 (JMsg "Server error"))).

(** PUT api/profile/experience; [fresh] is the identifier Mongoose
    generates for the new sub-document. *)
Definition put_experience (el : Elsewhere) (uid : Id) (body : ExperienceBody)
  (fresh : Id) : Handler response :=
  match validate_experience el body with
  | (_ :: _) as errors => ret (json 400 (JErrors errors))
  | [] =>
      try_catch
        (profile <- Profile_findOne uid ;;
         p <- deref "experience" profile ;;
         let p' := set_experience p (unshift (newExp fresh body) (experience p)) in
         Profile_save p' ;;;
         ret (json 200 (JProfile (Some p'))))
        (fun err => ret (send 500 "Server Error"))
  end.

(** [Profile.findOneAndUpdate({ experience: { $elemMatch: { _id } } },
    { $set: { "experience.$.<field>": ... } }, { new: true })].  The
    identifier of the query is cast to an ObjectId first. *)
Definition Profile_updateExperience (exp_id : Id) (body : ExperienceBody)
  : Handler (option Profile) :=
  if negb (ObjectId_isValid exp_id) then throw (CastError exp_id)
  else fun db =>
    match update_first
            (fun p => has_id exp_id (experience p))
            (fun p => set_experience p
                        (update_entry exp_id (patch_experience body) (experience p)))
            db with
    | Some (p, db') => (Ok (Some p), db')
    | None => (Ok None, db)
    end.

(** PUT api/profile/experience/:exp_id; [uid] is the identity the [auth]
    middleware attached to the request. *)
Definition put_experience_id (uid : Id) (exp_id : Id) (body : ExperienceBody)
  : Handler response :=
  try_catch
    (profile <- Profile_updateExperience exp_id body ;;
     ret (json 200 (JProfile profile)))
    (fun error => ret (json 500 (JMsg "Server error"))).

(** DELETE api/profile/experience/:exp_id *)
Definition delete_experience (uid : Id) (exp_id : Id) : Handler response :=
  try_catch
    (foundProfile <- Profile_findOne uid ;;
     p <- deref "experience" foundProfile ;;
     let p' := set_experience p (removeByID exp_id (experience p)) in
     Profile_save p' ;;;
     ret (json 200 (JProfile (Some p'))))
    (fun error => ret (json 500 (JMsg "Server error"))).

(** PUT api/profile/education *)
Definition put_education (el : Elsewhere) (uid : Id) (body : EducationBody)
  (fresh : Id) : Handler response :=
  match validate_education el body with
  | (_ :: _) as errors => ret (json 400 (JErrors errors))
  | [] =>
      try_catch
        (profile <- Profile_findOne uid ;;
         p <- deref "education" profile ;;
         let p' := set_education p (unshift (newEdu fresh body) (education p)) in
         Profile_save p' ;;;
         ret (json 200 (JProfile (Some p'))))
        (fun err => ret (send 500 "Server Error"))
  end.

(** DELETE api/profile/education/:edu_id *)
Definition delete_education (uid : Id) (edu_id : Id) : Handler response :=
  try_catch
    (foundProfile <- Profile_findOne uid ;;
     p <- deref "education" foundProfile ;;
     let p' := set_education p (removeByID edu_id (education p)) in
     Profile_save p' ;;;
     ret (json 200 (JProfile (Some p'))))
    (fun error => ret (json 500 (JMsg "Server error"))).

(** The lookup of GET api/profile/github/:username: the configured
    credentials, the encoded address, the request. *)
Definition github_lookup (username : string) : result RepoData :=
  (clientId <- config_get "githubClientId" ;;
   secret <- config_get "githubSecret" ;;
   uri <- encodeURI (repos_address username clientId secret) ;;
   axios_get uri)%result.

(** GET api/profile/github/:username *)
Definition get_github (username : string) : Handler response :=
  try_catch
    (gitHubResponse <- lift (github_lookup username) ;;
     ret (json 200 (JData gitHubResponse)))
    (fun err => ret (json 404 (JMsg "No Github profile found"))).

End Routes.

(** ** DELETE api/profile: the profile, its owner and the owner's posts

    The handler works on three collections.  Of a post only its author is
    read, of a user only its identifier. *)

Record Post := mkPost {
  post_id : Id;
  post_user : Id
}.

Record Store := mkStore {
  profiles : DB;
  posts : list Post;
  users : list User
}.

(** [Model.findOneAndRemove(query)]: the first matching document goes. *)
Fixpoint remove_first {A : Type} (sel : A -> bool) (l : list A) : list A :=
  match l with
  | [] => []
  | x :: r => if sel x then r else x :: remove_first sel r
  end.

(** [Post.deleteMany({ user: uid })] *)
Definition Post_deleteMany (uid : Id) (st : Store) : Store :=
  mkStore (profiles st)
    (filter (fun x => negb (String.eqb (post_user x) uid)) (posts st))
    (users st).

(** [Profile.findOneAndRemove({ user: uid })] *)
Definition Profile_findOneAndRemove (uid : Id) (st : Store) : Store :=
  mkStore (remove_first (fun p => String.eqb (user p) uid) (profiles st))
    (posts st) (users st).

(** [User.findOneAndRemove({ _id: uid })] *)
Definition User_findOneAndRemove (uid : Id) (st : Store) : Store :=
  mkStore (profiles st) (posts st)
    (remove_first (fun u => String.eqb (user_id u) uid) (users st)).

(** DELETE api/profile.  The three removals run in this order; as the
    collection operations do not fail here, the [catch] is not reached. *)
Definition delete_profile (uid : Id) (st : Store) : result response * Store :=
  let st1 := Post_deleteMany uid st in
  let st2 := Profile_findOneAndRemove uid st1 in
  let st3 := User_findOneAndRemove uid st2 in
  (Ok (json 200 (JMsg "User deleted")), st3).

(** ** Named responses *)

(** What GET api/profile/github/:username answers when the lookup fails. *)
Definition enrichment_unavailable : response :=
  json 404 (JMsg "No Github profile found").

(** What the two profile reads answer when the store has no profile. *)
Definition me_not_found : response :=
  json 400 (JErrors ["There is no profile for this user"]).
Definition user_not_found : response :=
  json 400 (JMsg "Profile not found").

(** ** Calendar dates

    The schema stores [from] and [to] as dates; a request carries them as
    strings.  The date-only forms of the ECMAScript date-time string format
    are read here: [YYYY], [YYYY-MM] and [YYYY-MM-DD], a missing month or
    day being 01. *)

Module Date.

Record date := mk { year : nat; month : nat; day : nat }.

Definition earlierb (a b : date) : bool :=
  (year a <? year b)%nat
  || ((year a =? year b)%nat
      && ((month a <? month b)%nat
          || ((month a =? month b)%nat && (day a <? day b)%nat))).

(** [a] is chronologically earlier than [b]. *)
Definition earlier (a b : date) : Prop := earlierb a b = true.

(** A four-digit year, a month and a day of the month. *)
Definition valid (d : date) : Prop :=
  year d < 100 * 100 /\ 1 <= month d <= 12 /\ 1 <= day d <= 31.

Definition digit (n : nat) : ascii := ascii_of_nat (48 + n).

Definition two_digits (n : nat) (rest : string) : string :=
  String (digit (n / 10)) (String (digit (n mod 10)) rest).

Definition four_digits (n : nat) (rest : string) : string :=
  two_digits (n / 100) (two_digits (n mod 100) rest).

(** The [YYYY-MM-DD] spelling of a date. *)
Definition iso (d : date) : string :=
  four_digits (year d)
    (String "-" (two_digits (month d) (String "-" (two_digits (day d) "")))).

Definition digit_of (c : ascii) : option nat :=
  let n := nat_of_ascii c in
  if ((48 <=? n) && (n <=? 57))%nat then Some (n - 48) else None.

Definition number (cs : list ascii) : option nat :=
  fold_left (fun acc c =>
               match acc, digit_of c with
               | Some a, Some k => Some (10 * a + k)
               | _, _ => None
               end) cs (Some 0).

Definition in_range (lo hi : nat) (n : option nat) : option nat :=
  match n with
  | Some k => if ((lo <=? k) && (k <=? hi))%nat then Some k else None
  | None => None
  end.

Definition make (y m d : option nat) : option date :=
  match y, in_range 1 12 m, in_range 1 31 d with
  | Some y', Some m', Some d' => Some (mk y' m' d')
  | _, _, _ => None
  end.

Definition parse (s : string) : option date :=
  match list_ascii_of_string s with
  | [a; b; c; d] => make (number [a; b; c; d]) (Some 1) (Some 1)
  | [a; b; c; d; h; e; f] =>
      if Ascii.eqb h "-" then make (number [a; b; c; d]) (number [e; f]) (Some 1)
      else None
  | [a; b; c; d; h; e; f; h'; g; i] =>
      if Ascii.eqb h "-" && Ascii.eqb h' "-"
      then make (number [a; b; c; d]) (number [e; f]) (number [g; i])
      else None
  | _ => None
  end.

Definition parse_field (v : field) : option date :=
  match v with
  | Some s => parse s
  | None => None
  end.

End Date.

(** ** Sample instances of the library parameters, used to run the handlers
    on concrete requests *)

Module Sample.

Definition normalize (s : string) : result string := Ok ("https://" ++ s)%string.
Definition notEmpty_array (l : list string) : nat :=
  match l with
  | [] => 1
  | _ => 0
  end.
Definition ObjectId_isValid (s : string) : bool := Nat.eqb (String.length s) 24.
Definition config_get (k : string) : result string := Ok k.
Definition encodeURI (s : string) : result string := Ok s.

(** A repository service that knows one handle only, and an address that
    answers with a page of HTML. *)
Definition http_get (uri : string) : reply :=
  if String.eqb uri
       "https://api.github.com/users/octocat/repos?per_page=5&sort=created:asc&client_id=githubClientId&client_secret=githubSecret"
  then Reply 200 "[]"
  else if String.eqb uri
       "https://api.github.com/users/proxy/repos?per_page=5&sort=created:asc&client_id=githubClientId&client_secret=githubSecret"
  then Reply 200 "<html>Service unavailable</html>"
  else Reply 404 "{}".

Definition people : list User :=
  [mkUser "5e00000000000000000000b2" "Bob" "b.png"].

Definition id1 : Id := "5f0000000000000000000001".
Definition id2 : Id := "5f0000000000000000000002".
Definition id3 : Id := "5f0000000000000000000003".
Definition alice : Id := "5e00000000000000000000a1".
Definition bob : Id := "5e00000000000000000000b2".

Definition no_social : Social := mkSocial None None None None None.

Definition job : ExperienceBody :=
  mkExperienceBody (Some "Engineer") (Some "Acme") None (Some "2021-01-01")
    None None None.

Definition job2 : ExperienceBody :=
  mkExperienceBody (Some "Lead") (Some "Initech") None (Some "2022-03-01")
    (Some "2023-04-01") (Some false) None.

Definition school : EducationBody :=
  mkEducationBody (Some "MIT") (Some "BSc") (Some "CS") (Some "2015-09-01")
    (Some "2019-06-01") None None.

Definition school2 : EducationBody :=
  mkEducationBody (Some "ETH") (Some "MSc") (Some "CS") (Some "2019-09-01")
    None (Some true) None.

(** Bob's profile, holding one experience entry. *)
Definition bob_profile : Profile :=
  {| _id := id1; user := bob; company := None; website := Some "";
     location := None; status := Some "Developer"; skills := [" js"];
     bio := None; githubusername := None; social := no_social;
     experience := [newExp id2 job]; education := [] |}.

Definition upsert_body (sk : skills_input) : ProfileBody :=
  mkProfileBody None (Some "") None (Some "Developer") (Some sk)
    None None None None None None None.

End Sample.

(** ** Statements used by the properties below *)

(** What the upsert makes of one comma-separated fragment. *)
Definition skill_of_fragment (frag skill : string) : Prop :=
  JS.contains "," frag = false
  /\ exists pre t post,
       frag = (pre ++ t ++ post)%string
       /\ JS.all_ws pre = true /\ JS.all_ws post = true
       /\ JS.trimmed t = true
       /\ skill = (" " ++ t)%string.

(** The outcomes of a request for which [axios.get] rejects. *)
Definition rejected (r : reply) : Prop :=
  match r with
  | NoReply => True
  | Reply status _ => status < 200 \/ 300 <= status
  end.

(** A body that is certainly not JSON: empty, or starting, after white
    space, with a character no JSON text starts with. *)
Definition not_json (body : string) : bool :=
  match JS.trimStart body with
  | EmptyString => true
  | String c _ =>
      negb (JS.contains c "[{-tfn0123456789" || (nat_of_ascii c =? 34)%nat)
  end.

(** A failed lookup in the words of the specification: network error,
    unknown handle or rate limit (a reply outside 200..299), malformed
    response. *)
Definition lookup_failed (r : reply) : Prop :=
  rejected r
  \/ exists status body,
       r = Reply status body /\ 200 <= status < 300 /\ not_json body = true.

(** The enrichment sentence as the specification words it: every failed
    lookup is answered with the one "unavailable" result. *)
Definition enrichment_claim : Prop :=
  forall (config_get encodeURI : string -> result string)
         (http_get : string -> reply) (username : string) (db : DB)
         (clientId secret uri : string),
    config_get "githubClientId" = Ok clientId ->
    config_get "githubSecret" = Ok secret ->
    encodeURI (repos_address username clientId secret) = Ok uri ->
    lookup_failed (http_get uri) ->
    get_github config_get encodeURI http_get username db
    = (Ok enrichment_unavailable, db).

(** An experience whose two dates spell the same day in two ways. *)
Definition same_day_job : ExperienceBody :=
  mkExperienceBody (Some "Engineer") (Some "Acme") None
    (Some "2020-01") (Some "2020-01-01") None None.

(** The date-ordering precondition as the specification words it: whenever
    the body carries a to-date and a from-date that is not chronologically
    earlier, PUT api/profile/experience answers 400 with the list of
    validation errors and leaves the collection alone. *)
Definition date_order_claim : Prop :=
  forall (el : Elsewhere) (db : DB) (uid fresh : Id) (body : ExperienceBody)
         (f t : Date.date),
    Date.parse_field (xb_from body) = Some f ->
    Date.parse_field (xb_to body) = Some t ->
    ~ Date.earlier f t ->
    exists errors,
      put_experience el uid body fresh db = (Ok (json 400 (JErrors errors)), db).

(** How the upsert stores one social link [v]: a populated link goes
    through the normalizer, an empty or absent one is kept as it is. *)
Definition link_stored (normalize : string -> result string)
  (v stored : field) : Prop :=
  if JS.truthy v
  then exists u, normalize_value normalize v = Ok u /\ stored = Some u
  else stored = v.

(** The number of occurrences of a character in a string. *)
Fixpoint count_char (c : ascii) (s : string) : nat :=
  match s with
  | EmptyString => 0
  | String x r => (if Ascii.eqb x c then 1 else 0) + count_char c r
  end.

(** Two states of the collection hold the same documents: the same
    identifiers and the same owners, in the same order. *)
Definition same_documents (db db' : DB) : Prop :=
  map _id db' = map _id db /\ map user db' = map user db.

(** * Properties *)

(** ** Strings: [split], [join] and [trim] *)

Section StringFacts.

Variable sep : ascii.

Lemma split_not_nil (s : string) : JS.split sep s <> [].
Proof.
  destruct s as [|c r]; simpl; [discriminate|].
  destruct (Ascii.eqb c sep); [discriminate|].
  destruct (JS.split sep r); discriminate.
Qed.

Lemma join_cons (x : string) (l : list string) :
  l <> [] -> JS.join sep (x :: l) = (x ++ String sep (JS.join sep l))%string.
Proof. destruct l; [congruence | reflexivity]. Qed.

(** Joining the fragments with the separator gives the string back. *)
Lemma join_split (s : string) : JS.join sep (JS.split sep s) = s.
Proof.
  induction s as [|c r IH]; simpl; [reflexivity|].
  destruct (Ascii.eqb_spec c sep) as [->|ne].
  - rewrite join_cons by apply split_not_nil. simpl. now rewrite IH.
  - pose proof (split_not_nil r) as nn.
    destruct (JS.split sep r) as [|h t] eqn:E; [congruence|].
    destruct t as [|h' t'].
    + simpl in *. now rewrite IH.
    + rewrite join_cons by discriminate.
      rewrite join_cons in IH by discriminate.
      cbn [append]. now rewrite IH.
Qed.

(** No fragment holds the separator. *)
Lemma split_no_sep (s : string) :
  Forall (fun frag => JS.contains sep frag = false) (JS.split sep s).
Proof.
  induction s as [|c r IH]; simpl.
  - constructor; [reflexivity | constructor].
  - destruct (Ascii.eqb c sep) eqn:E.
    + constructor; [reflexivity | exact IH].
    + destruct (JS.split sep r) as [|h t]; simpl.
      * constructor; [simpl; now rewrite E | constructor].
      * inversion IH; subst. constructor; [simpl; now rewrite E | assumption].
Qed.

End StringFacts.

Lemma trimStart_spec (s : string) :
  exists pre, s = (pre ++ JS.trimStart s)%string /\ JS.all_ws pre = true
              /\ (forall c, JS.first_char (JS.trimStart s) = Some c -> JS.is_ws c = false).
Proof.
  induction s as [|c r (pre & eq & ws & fst)]; simpl.
  - exists EmptyString. repeat split; simpl; congruence.
  - destruct (JS.is_ws c) eqn:W.
    + exists (String c pre). simpl. rewrite W, ws.
      repeat split; [congruence | exact fst].
    + exists EmptyString. repeat split. simpl. congruence.
Qed.

Lemma trimEnd_spec (s : string) :
  exists post, s = (JS.trimEnd s ++ post)%string /\ JS.all_ws post = true
               /\ (forall c, JS.last_char (JS.trimEnd s) = Some c -> JS.is_ws c = false).
Proof.
  induction s as [|c r (post & eq & ws & lst)]; simpl.
  - exists EmptyString. repeat split; simpl; congruence.
  - destruct (JS.trimEnd r) as [|c' r'] eqn:T.
    + destruct (JS.is_ws c) eqn:W.
      * exists (String c post). simpl in *. rewrite W, ws.
        repeat split; congruence.
      * exists post. simpl in *. repeat split; congruence.
    + exists post. repeat split; [simpl in *; congruence | assumption |].
      intros x. change (JS.last_char (String c (String c' r')))
        with (JS.last_char (String c' r')). apply lst.
Qed.

Lemma first_char_app (a b : string) (c : ascii) :
  JS.first_char a = Some c -> JS.first_char (a ++ b) = Some c.
Proof. destruct a; simpl; congruence. Qed.

(** [trim] removes a run of white space at each end and nothing else, and
    what is left neither starts nor ends with white space. *)
Lemma trim_spec (s : string) :
  exists pre post,
    s = (pre ++ JS.trim s ++ post)%string
    /\ JS.all_ws pre = true /\ JS.all_ws post = true
    /\ JS.trimmed (JS.trim s) = true.
Proof.
  destruct (trimStart_spec s) as (pre & eq1 & ws1 & fst).
  destruct (trimEnd_spec (JS.trimStart s)) as (post & eq2 & ws2 & lst).
  exists pre, post. unfold JS.trim. repeat split; try assumption.
  - rewrite <- eq2. exact eq1.
  - unfold JS.trimmed.
    destruct (JS.first_char (JS.trimEnd (JS.trimStart s))) as [a|] eqn:F; [|reflexivity].
    destruct (JS.last_char (JS.trimEnd (JS.trimStart s))) as [b|] eqn:L; [|reflexivity].
    rewrite (lst b eq_refl).
    rewrite (fst a); [reflexivity|].
    rewrite eq2. now apply first_char_app.
Qed.

(** ** The collection: [findOne], [save] and the updates *)

Lemma set_experience_same (p : Profile) : set_experience p (experience p) = p.
Proof. now destruct p. Qed.

Lemma set_education_same (p : Profile) : set_education p (education p) = p.
Proof. now destruct p. Qed.

(** Saving a document leaves the identifiers of the collection as they are. *)
Lemma replace_doc_ids (p : Profile) (db : DB) :
  map _id (replace_doc p db) = map _id db.
Proof.
  induction db as [|q r IH]; simpl; [reflexivity|].
  destruct (String.eqb_spec (_id q) (_id p)) as [e|ne]; simpl.
  - now rewrite e.
  - now rewrite IH.
Qed.

(** Saving a stored document unchanged leaves the collection as it is. *)
Lemma replace_doc_same (p : Profile) (db : DB) :
  NoDup (map _id db) -> In p db -> replace_doc p db = db.
Proof.
  induction db as [|q r IH]; simpl; intros nd hin; [reflexivity|].
  inversion nd as [|x xs notin nd']; subst.
  destruct (String.eqb_spec (_id q) (_id p)) as [e|ne].
  - destruct hin as [->|hin]; [reflexivity|].
    exfalso. apply notin. rewrite e. now apply in_map.
  - destruct hin as [->|hin]; [congruence|].
    now rewrite IH.
Qed.

(** After a save, [findOne] by owner returns the saved document. *)
Lemma find_replace_doc (u : Id) (p p' : Profile) (db : DB) :
  NoDup (map _id db) ->
  find (fun q => String.eqb (user q) u) db = Some p ->
  _id p' = _id p -> user p' = u ->
  find (fun q => String.eqb (user q) u) (replace_doc p' db) = Some p'.
Proof.
  intros nd hf hid hu.
  induction db as [|q r IH]; simpl in *; [discriminate|].
  inversion nd as [|x xs notin nd']; subst.
  destruct (String.eqb (user q) (user p')) eqn:U.
  - injection hf as ->. rewrite hid, String.eqb_refl. simpl.
    now rewrite String.eqb_refl.
  - destruct (String.eqb_spec (_id q) (_id p')) as [e|ne].
    + exfalso. apply notin. rewrite e, hid.
      apply in_map. eapply find_some. exact hf.
    + simpl. rewrite U. now apply IH.
Qed.

Ltac run_handler :=
  unfold try_catch, bind, ret, lift, throw, deref, Profile_findOne, Profile_save;
  simpl.

(** PUT api/profile/experience on a stored profile. *)
Lemma put_experience_found (el : Elsewhere) (db : DB) (uid fresh : Id) (body : ExperienceBody)
  (p : Profile) :
  validate_experience el body = [] ->
  find (fun q => String.eqb (user q) uid) db = Some p ->
  let p' := set_experience p (newExp fresh body :: experience p) in
  put_experience el uid body fresh db
  = (Ok (json 200 (JProfile (Some p'))), replace_doc p' db).
Proof.
  intros v f. unfold put_experience. rewrite v. run_handler. now rewrite f.
Qed.

(** PUT api/profile/education on a stored profile. *)
Lemma put_education_found (el : Elsewhere) (db : DB) (uid fresh : Id) (body : EducationBody)
  (p : Profile) :
  validate_education el body = [] ->
  find (fun q => String.eqb (user q) uid) db = Some p ->
  let p' := set_education p (newEdu fresh body :: education p) in
  put_education el uid body fresh db
  = (Ok (json 200 (JProfile (Some p'))), replace_doc p' db).
Proof.
  intros v f. unfold put_education. rewrite v. run_handler. now rewrite f.
Qed.

(** DELETE api/profile/experience/:exp_id on a stored profile. *)
Lemma delete_experience_found (db : DB) (uid exp_id : Id) (p : Profile) :
  find (fun q => String.eqb (user q) uid) db = Some p ->
  let p' := set_experience p (removeByID exp_id (experience p)) in
  delete_experience uid exp_id db
  = (Ok (json 200 (JProfile (Some p'))), replace_doc p' db).
Proof.
  intros f. unfold delete_experience. run_handler. now rewrite f.
Qed.

(** DELETE api/profile/education/:edu_id on a stored profile. *)
Lemma delete_education_found (db : DB) (uid edu_id : Id) (p : Profile) :
  find (fun q => String.eqb (user q) uid) db = Some p ->
  let p' := set_education p (removeByID edu_id (education p)) in
  delete_education uid edu_id db
  = (Ok (json 200 (JProfile (Some p'))), replace_doc p' db).
Proof.
  intros f. unfold delete_education. run_handler. now rewrite f.
Qed.

(** ** Sub-document lists *)

Section SubDocuments.

Context {E : Type} `{SubDoc E}.

Lemma removeByID_app (id : Id) (l1 l2 : list E) :
  removeByID id (l1 ++ l2) = removeByID id l1 ++ removeByID id l2.
Proof. unfold removeByID. apply filter_app. Qed.

Lemma removeByID_In (id : Id) (l : list E) (e : E) :
  In e (removeByID id l) <-> In e l /\ doc_id e <> id.
Proof.
  unfold removeByID. rewrite filter_In.
  destruct (String.eqb_spec (doc_id e) id); simpl; intuition congruence.
Qed.

Lemma removeByID_absent (id : Id) (l : list E) :
  (forall e, In e l -> doc_id e <> id) -> removeByID id l = l.
Proof.
  induction l as [|x r IH]; simpl; intros ne; [reflexivity|].
  destruct (String.eqb_spec (doc_id x) id) as [e|_]; simpl.
  - exfalso. apply (ne x); auto.
  - f_equal. apply IH. intros e he. apply ne. now right.
Qed.

Lemma has_id_false (id : Id) (l : list E) :
  has_id id l = false <-> (forall e, In e l -> doc_id e <> id).
Proof.
  unfold has_id. induction l as [|x r IH]; simpl.
  - intuition.
  - rewrite orb_false_iff, IH. split.
    + intros [hx hr] e [<-|he]; [|now apply hr].
      now apply String.eqb_neq.
    + intros h. split; [apply String.eqb_neq; apply h; now left|].
      intros e he. apply h. now right.
Qed.

End SubDocuments.

(** C5. Add-then-remove: for every list of sub-documents and every entry
    [e] whose generated identifier is fresh for the list, removing by that
    identifier from the list produced by the add gives back the original
    list, contents and order. *)
Theorem add_then_remove {E : Type} `{SubDoc E} (l : list E) (e : E) :
  (forall x, In x l -> doc_id x <> doc_id e) ->
  removeByID (doc_id e) (unshift e l) = l.
Proof.
  intros fresh. unfold unshift, removeByID. simpl.
  rewrite String.eqb_refl. simpl.
  now apply removeByID_absent.
Qed.

Lemma add_then_remove_witness :
  (forall x, In x [newExp Sample.id2 Sample.job] ->
             doc_id x <> doc_id (newExp Sample.id3 Sample.job2))
  /\ removeByID Sample.id3
       (unshift (newExp Sample.id3 Sample.job2) [newExp Sample.id2 Sample.job])
     = [newExp Sample.id2 Sample.job].
Proof.
  assert (fresh : forall x, In x [newExp Sample.id2 Sample.job] ->
                            doc_id x <> doc_id (newExp Sample.id3 Sample.job2)).
  { intros x [<-|[]]. discriminate. }
  split; [exact fresh|].
  exact (add_then_remove [newExp Sample.id2 Sample.job]
           (newExp Sample.id3 Sample.job2) fresh).
Defined.

(** C6. Head insertion: every add of an experience or education entry puts
    the new entry at position 0 and keeps the entries already there, in
    their order and with their identifiers, behind it; after two adds of E1
    then E2 the list starts with E2, then E1. *)
Theorem add_inserts_at_head (el : Elsewhere) (db : DB) (uid : Id) (p : Profile) :
  NoDup (map _id db) ->
  find (fun q => String.eqb (user q) uid) db = Some p ->
  (forall (E1 E2 : ExperienceBody) (i1 i2 : Id),
      validate_experience el E1 = [] -> validate_experience el E2 = [] ->
      exists p1 p2 db1 db2,
        put_experience el uid E1 i1 db = (Ok (json 200 (JProfile (Some p1))), db1)
        /\ experience p1 = newExp i1 E1 :: experience p
        /\ put_experience el uid E2 i2 db1 = (Ok (json 200 (JProfile (Some p2))), db2)
        /\ experience p2 = newExp i2 E2 :: newExp i1 E1 :: experience p)
  /\ (forall (E1 E2 : EducationBody) (i1 i2 : Id),
      validate_education el E1 = [] -> validate_education el E2 = [] ->
      exists p1 p2 db1 db2,
        put_education el uid E1 i1 db = (Ok (json 200 (JProfile (Some p1))), db1)
        /\ education p1 = newEdu i1 E1 :: education p
        /\ put_education el uid E2 i2 db1 = (Ok (json 200 (JProfile (Some p2))), db2)
        /\ education p2 = newEdu i2 E2 :: newEdu i1 E1 :: education p).
Proof.
  intros nd hf.
  assert (hu : user p = uid).
  { apply find_some in hf. destruct hf as [_ hf]. now apply String.eqb_eq. }
  split; intros E1 E2 i1 i2 v1 v2.
  - pose (p1 := set_experience p (newExp i1 E1 :: experience p)).
    pose (p2 := set_experience p1 (newExp i2 E2 :: experience p1)).
    exists p1, p2, (replace_doc p1 db), (replace_doc p2 (replace_doc p1 db)).
    split; [now apply put_experience_found|].
    split; [reflexivity|].
    split; [|reflexivity].
    apply put_experience_found; [assumption|].
    now apply find_replace_doc with (p := p).
  - pose (p1 := set_education p (newEdu i1 E1 :: education p)).
    pose (p2 := set_education p1 (newEdu i2 E2 :: education p1)).
    exists p1, p2, (replace_doc p1 db), (replace_doc p2 (replace_doc p1 db)).
    split; [now apply put_education_found|].
    split; [reflexivity|].
    split; [|reflexivity].
    apply put_education_found; [assumption|].
    now apply find_replace_doc with (p := p).
Qed.

Lemma add_inserts_at_head_witness :
  exists p1 p2 db1 db2,
    put_experience nowhere Sample.bob Sample.job Sample.id3 [Sample.bob_profile]
    = (Ok (json 200 (JProfile (Some p1))), db1)
    /\ experience p1 = newExp Sample.id3 Sample.job :: experience Sample.bob_profile
    /\ put_experience nowhere Sample.bob Sample.job2 Sample.id1 db1
       = (Ok (json 200 (JProfile (Some p2))), db2)
    /\ experience p2
       = newExp Sample.id1 Sample.job2 :: newExp Sample.id3 Sample.job
           :: experience Sample.bob_profile.
Proof.
  assert (nd : NoDup (map _id [Sample.bob_profile])).
  { constructor; [intros [] | constructor]. }
  exact (proj1 (add_inserts_at_head nowhere [Sample.bob_profile] Sample.bob
                  Sample.bob_profile nd eq_refl)
           Sample.job Sample.job2 Sample.id3 Sample.id1 eq_refl eq_refl).
Defined.

(** C7. Remove-by-identifier deletes exactly the entries whose identifier is
    the given one: an entry is kept if and only if it was there with another
    identifier, the kept entries stay in their order (around any entry of
    the list, what is kept on its left stays on its left and what is kept
    on its right stays on its right), and when no entry matches the list
    comes back unchanged. *)
Theorem remove_by_identifier {E : Type} `{SubDoc E} (id : Id) (l : list E) :
  (forall e, In e (removeByID id l) <-> In e l /\ doc_id e <> id)
  /\ (forall l1 x l2, l = l1 ++ x :: l2 ->
        removeByID id l
        = removeByID id l1
            ++ (if String.eqb (doc_id x) id then [] else [x])
            ++ removeByID id l2)
  /\ ((forall e, In e l -> doc_id e <> id) -> removeByID id l = l).
Proof.
  split; [|split].
  - intros e. apply removeByID_In.
  - intros l1 x l2 ->. rewrite removeByID_app. f_equal.
    unfold removeByID. simpl. now destruct (String.eqb (doc_id x) id).
  - apply removeByID_absent.
Qed.

Lemma remove_by_identifier_witness :
  (forall e, In e [newExp Sample.id2 Sample.job] -> doc_id e <> Sample.id3)
  /\ removeByID Sample.id3 [newExp Sample.id2 Sample.job]
     = [newExp Sample.id2 Sample.job].
Proof.
  assert (absent : forall e, In e [newExp Sample.id2 Sample.job] ->
                             doc_id e <> Sample.id3).
  { intros e [<-|[]]. discriminate. }
  split; [exact absent|].
  exact (proj2 (proj2 (remove_by_identifier Sample.id3
                         [newExp Sample.id2 Sample.job])) absent).
Defined.

(** ** Updates addressed by a sub-document identifier *)

Lemma update_first_none (sel : Profile -> bool) (upd : Profile -> Profile) (db : DB) :
  (forall q, In q db -> sel q = false) -> update_first sel upd db = None.
Proof.
  induction db as [|q r IH]; simpl; intros no; [reflexivity|].
  rewrite (no q) by now left.
  rewrite IH; [reflexivity|]. intros x hx. apply no. now right.
Qed.

Lemma update_first_here (sel : Profile -> bool) (upd : Profile -> Profile)
  (pre post : DB) (p : Profile) :
  (forall q, In q pre -> sel q = false) -> sel p = true ->
  update_first sel upd (pre ++ p :: post) = Some (upd p, pre ++ upd p :: post).
Proof.
  induction pre as [|q r IH]; simpl; intros no yes.
  - now rewrite yes.
  - rewrite (no q) by now left.
    rewrite IH; [reflexivity| |assumption]. intros x hx. apply no. now right.
Qed.

Lemma update_entry_here (id : Id) (g : Experience -> Experience)
  (l1 l2 : list Experience) (e : Experience) :
  (forall x, In x l1 -> exp_id x <> id) -> exp_id e = id ->
  update_entry id g (l1 ++ e :: l2) = l1 ++ g e :: l2.
Proof.
  induction l1 as [|x r IH]; simpl; intros no yes.
  - now rewrite yes, String.eqb_refl.
  - destruct (String.eqb_spec (exp_id x) id) as [e'|_].
    + exfalso. apply (no x); auto.
    + f_equal. apply IH; [|assumption]. intros y hy. apply no. now right.
Qed.

Lemma has_id_here (id : Id) (l1 l2 : list Experience) (e : Experience) :
  exp_id e = id -> has_id id (l1 ++ e :: l2) = true.
Proof.
  intros <-. unfold has_id. rewrite existsb_app. simpl.
  change (doc_id e) with (exp_id e).
  now rewrite String.eqb_refl, orb_true_r.
Qed.

(** C2. PUT api/profile/experience for an identity without a profile: the
    handler dereferences the [null] that [findOne] returned, the [TypeError]
    lands in its [catch], and the answer is the 500 "Server Error" of an
    unexpected failure; nothing is created. *)
Theorem put_experience_without_profile (el : Elsewhere) (db : DB) (uid fresh : Id)
  (body : ExperienceBody) :
  validate_experience el body = [] ->
  find (fun q => String.eqb (user q) uid) db = None ->
  put_experience el uid body fresh db = (Ok (send 500 "Server Error"), db).
Proof.
  intros v f. unfold put_experience. rewrite v. run_handler. now rewrite f.
Qed.

Lemma put_experience_without_profile_witness :
  put_experience nowhere Sample.alice Sample.job Sample.id3 [Sample.bob_profile]
  = (Ok (send 500 "Server Error"), [Sample.bob_profile]).
Proof.
  exact (put_experience_without_profile nowhere [Sample.bob_profile] Sample.alice
           Sample.id3 Sample.job eq_refl eq_refl).
Defined.

(** C3. PUT api/profile/experience/:exp_id picks its target by the entry
    identifier alone: the first profile of the whole collection whose
    experience list holds an entry with that identifier, whoever owns it and
    whoever the authenticated caller [uid] is.  The first such entry keeps
    its identifier and its place in the list and takes each of its seven
    fields (title, company, location, from, to, current, description) from
    the body; the other entries, the other fields of the profile and the
    other profiles stay as they are; the update is stored and the updated
    profile is the answer. *)
Theorem put_experience_id_any_owner (isValid : string -> bool)
  (uid eid : Id) (body : ExperienceBody)
  (pre post : DB) (p : Profile) (l1 l2 : list Experience) (e : Experience) :
  isValid eid = true ->
  (forall q, In q pre -> has_id eid (experience q) = false) ->
  experience p = l1 ++ e :: l2 ->
  (forall x, In x l1 -> exp_id x <> eid) ->
  exp_id e = eid ->
  let e' := mkExperience (exp_id e) (xb_title body) (xb_company body)
              (xb_location body) (xb_from body) (xb_to body)
              (xb_current body) (xb_description body) in
  let p' := set_experience p (l1 ++ e' :: l2) in
  put_experience_id isValid uid eid body (pre ++ p :: post)
  = (Ok (json 200 (JProfile (Some p'))), pre ++ p' :: post)
  /\ experience p' = l1 ++ e' :: l2
  /\ exp_id e' = eid
  /\ exp_title e' = xb_title body /\ exp_company e' = xb_company body
  /\ exp_location e' = xb_location body /\ exp_from e' = xb_from body
  /\ exp_to e' = xb_to body /\ exp_current e' = xb_current body
  /\ exp_description e' = xb_description body
  /\ _id p' = _id p /\ user p' = user p /\ education p' = education p
  /\ set_experience p' (experience p) = p.
Proof.
  intros ok no hexp hl1 he e' p'.
  split.
  - unfold put_experience_id, Profile_updateExperience. rewrite ok. run_handler.
    rewrite update_first_here; try assumption.
    + subst p' e'. rewrite hexp, update_entry_here by assumption. reflexivity.
    + rewrite hexp. now apply has_id_here.
  - subst p' e'. simpl. repeat split; try assumption. now destruct p.
Qed.

Lemma put_experience_id_any_owner_witness :
  Sample.alice <> user Sample.bob_profile
  /\ put_experience_id Sample.ObjectId_isValid Sample.alice Sample.id2 Sample.job2
       [Sample.bob_profile]
     = (Ok (json 200 (JProfile (Some
             (set_experience Sample.bob_profile
                [mkExperience Sample.id2 (Some "Lead") (Some "Initech") None
                   (Some "2022-03-01") (Some "2023-04-01") (Some false)
                   None])))),
        [set_experience Sample.bob_profile
           [mkExperience Sample.id2 (Some "Lead") (Some "Initech") None
              (Some "2022-03-01") (Some "2023-04-01") (Some false) None]]).
Proof.
  split; [discriminate|].
  exact (proj1 (put_experience_id_any_owner Sample.ObjectId_isValid Sample.alice
                  Sample.id2 Sample.job2 [] [] Sample.bob_profile [] []
                  (newExp Sample.id2 Sample.job)
                  eq_refl (fun q (h : In q []) => match h with end) eq_refl
                  (fun x (h : In x []) => match h with end) eq_refl)).
Defined.

(** C4. PUT api/profile/experience/:exp_id with a well-formed identifier
    that no entry of any profile carries: [findOneAndUpdate] returns [null]
    and the handler answers 200 with the body [null]; the collection is
    unchanged. *)
Theorem put_experience_id_no_match (isValid : string -> bool)
  (uid eid : Id) (body : ExperienceBody) (db : DB) :
  isValid eid = true ->
  (forall q, In q db -> has_id eid (experience q) = false) ->
  put_experience_id isValid uid eid body db = (Ok (json 200 (JProfile None)), db).
Proof.
  intros ok no.
  unfold put_experience_id, Profile_updateExperience. rewrite ok. run_handler.
  now rewrite update_first_none.
Qed.

Lemma put_experience_id_no_match_witness :
  put_experience_id Sample.ObjectId_isValid Sample.bob Sample.id3 Sample.job2
    [Sample.bob_profile]
  = (Ok (json 200 (JProfile None)), [Sample.bob_profile]).
Proof.
  refine (put_experience_id_no_match Sample.ObjectId_isValid Sample.bob
            Sample.id3 Sample.job2 [Sample.bob_profile] eq_refl _).
  intros q [<-|[]]. reflexivity.
Defined.

(** ** The repository lookup *)

Section Enrichment.

Variable ObjectId_isValid : string -> bool.
Variable config_get encodeURI : string -> result string.
Variable http_get : string -> reply.
Variable users : list User.

Let lookup := github_lookup config_get encodeURI http_get.
Let github := get_github config_get encodeURI http_get.

Lemma get_github_failure (username : string) (db : DB) (e : exn) :
  lookup username = Throw e ->
  github username db = (Ok enrichment_unavailable, db).
Proof.
  intros f. unfold github, get_github. run_handler.
  fold lookup. now rewrite f.
Qed.

Lemma get_github_success (username : string) (db : DB) (d : RepoData) :
  lookup username = Ok d ->
  github username db = (Ok (json 200 (JData d)), db).
Proof.
  intros f. unfold github, get_github. run_handler.
  fold lookup. now rewrite f.
Qed.

Lemma lookup_is_request (username clientId secret uri : string) :
  config_get "githubClientId" = Ok clientId ->
  config_get "githubSecret" = Ok secret ->
  encodeURI (repos_address username clientId secret) = Ok uri ->
  lookup username = axios_get http_get uri.
Proof.
  intros c1 c2 enc. unfold lookup, github_lookup.
  rewrite c1. cbn [and_then]. rewrite c2. cbn [and_then].
  fold (repos_address username clientId secret).
  rewrite enc. reflexivity.
Qed.

Lemma axios_get_rejects (uri : string) :
  rejected (http_get uri) ->
  exists why, axios_get http_get uri = Throw (AxiosError why).
Proof.
  unfold rejected, axios_get. destruct (http_get uri) as [|status body].
  - intros _. now exists NetworkError.
  - intros out. exists (BadStatus status).
    destruct (Nat.leb_spec 200 status), (Nat.ltb_spec status 300);
      simpl; try reflexivity; lia.
Qed.

Lemma axios_get_resolves (uri : string) (status : nat) (body : string) :
  http_get uri = Reply status body -> 200 <= status < 300 ->
  axios_get http_get uri = Ok body.
Proof.
  intros r [lo hi]. unfold axios_get. rewrite r.
  destruct (Nat.leb_spec 200 status), (Nat.ltb_spec status 300);
    simpl; try reflexivity; lia.
Qed.

Lemma get_me_answers (uid : Id) (db : DB) :
  get_me users uid db = (Ok me_not_found, db)
  \/ exists p, get_me users uid db = (Ok (json 200 (JPopulated p)), db).
Proof.
  unfold get_me, Profile_findOne_populate. run_handler.
  destruct (find _ db) as [p|]; [right; now eexists | now left].
Qed.

Lemma get_user_answers (user_id : Id) (db : DB) :
  get_user ObjectId_isValid users user_id db
  = (Ok (json 400 (JMsg "Invalid user ID")), db)
  \/ get_user ObjectId_isValid users user_id db = (Ok user_not_found, db)
  \/ exists p, get_user ObjectId_isValid users user_id db
               = (Ok (json 200 (JPopulated p)), db).
Proof.
  unfold get_user, Profile_findOne_populate.
  destruct (ObjectId_isValid user_id); simpl; [|now left].
  right. run_handler.
  destruct (find _ db) as [p|]; [right; now eexists | now left].
Qed.


End Enrichment.



(** ** The upsert *)

Lemma update_first_some (sel : Profile -> bool) (upd : Profile -> Profile)
  (db db' : DB) (p : Profile) :
  update_first sel upd db = Some (p, db') ->
  In p db' /\ exists q, In q db /\ sel q = true /\ p = upd q.
Proof.
  revert db'. induction db as [|x r IH]; simpl; intros db' h; [discriminate|].
  destruct (sel x) eqn:S.
  - injection h as <- <-. split; [now left|]. exists x. auto.
  - destruct (update_first sel upd r) as [[p0 r']|]; [|discriminate].
    injection h as -> <-.
    destruct (IH r' eq_refl) as (hin & q & hq & hs & ->).
    split; [now right|]. exists q. auto.
Qed.

Section Upsert.

Variable normalize : string -> result string.
Variable notEmpty_array : list string -> nat.

(** Once the fields are built, the upsert answers 200 with a stored
    profile of the caller that carries the fields. *)
Lemma post_profile_built (el : Elsewhere) (uid fresh : Id) (body : ProfileBody) (db : DB)
  (f : ProfileFields) :
  validate_profile notEmpty_array el body = [] ->
  build_profileFields normalize uid body = Ok f ->
  exists p db',
    post_profile normalize notEmpty_array el uid body fresh db
    = (Ok (json 200 (JProfile (Some p))), db')
    /\ In p db' /\ skills p = pf_skills f /\ website p = Some (pf_website f).
Proof.
  intros v b. unfold post_profile. rewrite v, b.
  unfold try_catch, bind, lift, ret, Profile_upsert.
  destruct (update_first _ (set_fields f) db) as [[p db']|] eqn:U.
  - exists p, db'. apply update_first_some in U.
    destruct U as (hin & q & _ & _ & ->). auto.
  - exists (new_profile fresh f), (db ++ [new_profile fresh f]).
    repeat split. apply in_or_app. right. now left.
Qed.

Lemma build_profileFields_skills (uid : Id) (body : ProfileBody)
  (f : ProfileFields) :
  build_profileFields normalize uid body = Ok f ->
  skills_field (b_skills body) = Ok (pf_skills f)
  /\ website_field normalize (b_website body) = Ok (pf_website f).
Proof.
  unfold build_profileFields.
  destruct (website_field normalize (b_website body)); [|discriminate].
  destruct (skills_field (b_skills body)); [|discriminate].
  cbn [and_then].
  repeat match goal with
         | |- context [and_then (social_field normalize ?v) _] =>
             destruct (social_field normalize v); [|discriminate];
             cbn [and_then]
         end.
  intros [= <-]. auto.
Qed.

(** When the fields cannot be built, the exception leaves the handler:
    no answer is sent and nothing is written. *)
Lemma post_profile_throws (el : Elsewhere) (uid fresh : Id) (body : ProfileBody) (db : DB)
  (e : exn) :
  validate_profile notEmpty_array el body = [] ->
  build_profileFields normalize uid body = Throw e ->
  post_profile normalize notEmpty_array el uid body fresh db = (Throw e, db).
Proof.
  intros v b. unfold post_profile. rewrite v, b. reflexivity.
Qed.

End Upsert.

Lemma split_skills_spec (s : string) :
  Forall2 skill_of_fragment (JS.split "," s) (split_skills s).
Proof.
  unfold split_skills.
  pose proof (split_no_sep "," s) as ns.
  induction ns as [|frag l nc _ IH]; simpl; constructor; [|exact IH].
  split; [exact nc|].
  destruct (trim_spec frag) as (pre & post & eq & w1 & w2 & t).
  exists pre, (JS.trim frag), post. auto.
Qed.

(** C1 (as amended). An upsert that passes validation and whose links
    normalize answers with a stored profile whose skills are: for a
    comma-delimited string, fragment by fragment and in order, one space
    followed by the fragment with the white space at its two ends removed;
    for an array, the array as supplied. *)
Theorem upsert_skills (normalize : string -> result string)
  (notEmpty_array : list string -> nat) (el : Elsewhere)
  (uid fresh : Id) (body : ProfileBody) (db : DB) (f : ProfileFields) :
  validate_profile notEmpty_array el body = [] ->
  build_profileFields normalize uid body = Ok f ->
  exists p db',
    post_profile normalize notEmpty_array el uid body fresh db
    = (Ok (json 200 (JProfile (Some p))), db')
    /\ In p db'
    /\ (forall s, b_skills body = Some (SkillsString s) ->
          JS.join "," (JS.split "," s) = s
          /\ Forall2 skill_of_fragment (JS.split "," s) (skills p))
    /\ (forall l, b_skills body = Some (SkillsArray l) -> skills p = l).
Proof.
  intros v b.
  destruct (post_profile_built normalize notEmpty_array el uid fresh body db f v b)
    as (p & db' & run & hin & hs & _).
  destruct (build_profileFields_skills normalize uid body f b) as [sk _].
  exists p, db'. split; [exact run|]. split; [exact hin|]. split.
  - intros s hs'. rewrite hs' in sk. injection sk as sk. split.
    + apply join_split.
    + rewrite hs, <- sk. apply split_skills_spec.
  - intros l hl. rewrite hl in sk. injection sk as sk. congruence.
Qed.

Lemma upsert_skills_witness :
  exists p db',
    post_profile Sample.normalize Sample.notEmpty_array nowhere Sample.alice
      (Sample.upsert_body (SkillsString "js, css")) Sample.id1 []
    = (Ok (json 200 (JProfile (Some p))), db')
    /\ In p db'
    /\ Forall2 skill_of_fragment (JS.split "," "js, css") (skills p).
Proof.
  destruct (upsert_skills Sample.normalize Sample.notEmpty_array nowhere Sample.alice
              Sample.id1 (Sample.upsert_body (SkillsString "js, css")) []
              _ eq_refl eq_refl)
    as (p & db' & run & hin & str & _).
  exists p, db'. split; [exact run|]. split; [exact hin|].
  exact (proj2 (str "js, css" eq_refl)).
Defined.

(** C1 (as stated) fails: the skills stored for ["a, b ,c"] are [" a"],
    [" b"], [" c"], each with a leading space, not ["a"], ["b"], ["c"]; and
    an array is stored as it comes, untrimmed. *)
Lemma upsert_skills_not_bare_trimmed :
  (exists p db',
      post_profile Sample.normalize Sample.notEmpty_array nowhere Sample.alice
        (Sample.upsert_body (SkillsString "a, b ,c")) Sample.id1 []
      = (Ok (json 200 (JProfile (Some p))), db')
      /\ skills p = [" a"; " b"; " c"]
      /\ skills p <> ["a"; "b"; "c"]
      /\ existsb (fun skill => negb (JS.trimmed skill)) (skills p) = true)
  /\ (exists p db',
      post_profile Sample.normalize Sample.notEmpty_array nowhere Sample.alice
        (Sample.upsert_body (SkillsArray [" x "])) Sample.id1 []
      = (Ok (json 200 (JProfile (Some p))), db')
      /\ skills p = [" x "]
      /\ existsb (fun skill => negb (JS.trimmed skill)) (skills p) = true).
Proof.
  split; eexists; eexists; (split; [reflexivity|]); simpl;
    repeat split; discriminate.
Qed.

(** C10. An upsert that passes validation but has no [website] at all
    throws a [TypeError] while its fields are built: the exception is not
    caught by the handler, no answer is sent and nothing is written.  Only
    the empty string skips the normalizer; any other value, absent ones
    included, is handed to it. *)
Theorem upsert_without_website_throws (normalize : string -> result string)
  (notEmpty_array : list string -> nat) (el : Elsewhere)
  (uid fresh : Id) (body : ProfileBody) (db : DB) :
  (validate_profile notEmpty_array el body = [] ->
   b_website body = None ->
   exists msg,
     post_profile normalize notEmpty_array el uid body fresh db
     = (Throw (TypeError msg), db))
  /\ website_field normalize (Some "") = Ok ""
  /\ (forall w, w <> Some "" ->
        website_field normalize w = normalize_value normalize w).
Proof.
  split; [|split].
  - intros v w. eexists. apply post_profile_throws; [exact v|].
    unfold build_profileFields. rewrite w. reflexivity.
  - reflexivity.
  - intros [[|c r]|] ne; simpl; congruence.
Qed.

Lemma upsert_without_website_throws_witness :
  exists msg,
    post_profile Sample.normalize Sample.notEmpty_array nowhere Sample.alice
      (mkProfileBody None None None (Some "Developer") (Some (SkillsString "js"))
         None None None None None None None)
      Sample.id3 [Sample.bob_profile]
    = (Throw (TypeError msg), [Sample.bob_profile]).
Proof.
  exact (proj1 (upsert_without_website_throws Sample.normalize
                  Sample.notEmpty_array nowhere Sample.alice Sample.id3
                  (mkProfileBody None None None (Some "Developer")
                     (Some (SkillsString "js")) None None None None None None None)
                  [Sample.bob_profile])
           eq_refl eq_refl).
Defined.

(** ** Dates: string order against calendar order *)

Section DateFacts.

Import Date.
Local Open Scope nat_scope.

Lemma nat_of_digit (k : nat) : k < 10 -> nat_of_ascii (digit k) = 48 + k.
Proof. intros h. unfold digit. apply nat_ascii_embedding. lia. Qed.

Lemma digit_of_digit (k : nat) : k < 10 -> digit_of (digit k) = Some k.
Proof.
  intros h. unfold digit_of. rewrite nat_of_digit by assumption.
  replace (48 <=? 48 + k) with true by (symmetry; apply Nat.leb_le; lia).
  replace (48 + k <=? 57) with true by (symmetry; apply Nat.leb_le; lia).
  simpl. f_equal. lia.
Qed.

Lemma lt_digit (m n : nat) (s t : string) :
  m < 10 -> n < 10 ->
  JS.lt (String (digit m) s) (String (digit n) t)
  = if m <? n then true else if n <? m then false else JS.lt s t.
Proof.
  intros hm hn. cbn [JS.lt]. rewrite !nat_of_digit by assumption.
  repeat match goal with
         | |- context [?x <? ?y] => destruct (Nat.ltb_spec x y)
         end; try reflexivity; lia.
Qed.

Lemma lt_same (c : ascii) (s t : string) :
  JS.lt (String c s) (String c t) = JS.lt s t.
Proof. cbn [JS.lt]. now rewrite Nat.ltb_irrefl. Qed.

Lemma two_digit_parts (n : nat) :
  n < 100 -> n / 10 < 10 /\ n mod 10 < 10 /\ n = 10 * (n / 10) + n mod 10.
Proof.
  intros h. split; [|split].
  - apply Nat.Div0.div_lt_upper_bound. lia.
  - apply Nat.mod_upper_bound. lia.
  - apply Nat.div_mod_eq.
Qed.

Lemma four_digit_parts (n : nat) :
  n < 100 * 100 ->
  n / 100 < 100 /\ n mod 100 < 100 /\ n = 100 * (n / 100) + n mod 100.
Proof.
  intros h. split; [|split].
  - apply Nat.Div0.div_lt_upper_bound. lia.
  - apply Nat.mod_upper_bound. lia.
  - apply Nat.div_mod_eq.
Qed.

Lemma lt_two_digits (m n : nat) (s t : string) :
  m < 100 -> n < 100 ->
  JS.lt (two_digits m s) (two_digits n t)
  = if m <? n then true else if n <? m then false else JS.lt s t.
Proof.
  intros hm hn. unfold two_digits.
  destruct (two_digit_parts m hm) as (m1 & m0 & em).
  destruct (two_digit_parts n hn) as (n1 & n0 & en).
  rewrite !lt_digit by assumption.
  revert m1 m0 em n1 n0 en.
  generalize (m / 10) (m mod 10) (n / 10) (n mod 10). intros a b c d.
  intros. subst m n.
  repeat match goal with
         | |- context [?x <? ?y] => destruct (Nat.ltb_spec x y)
         end; try reflexivity; lia.
Qed.

Lemma lt_four_digits (m n : nat) (s t : string) :
  m < 100 * 100 -> n < 100 * 100 ->
  JS.lt (four_digits m s) (four_digits n t)
  = if m <? n then true else if n <? m then false else JS.lt s t.
Proof.
  intros hm hn. unfold four_digits.
  destruct (four_digit_parts m hm) as (m1 & m0 & em).
  destruct (four_digit_parts n hn) as (n1 & n0 & en).
  rewrite !lt_two_digits by assumption.
  revert m1 m0 em n1 n0 en.
  generalize (m / 100) (m mod 100) (n / 100) (n mod 100). intros a b c d.
  intros. subst m n.
  repeat match goal with
         | |- context [?x <? ?y] => destruct (Nat.ltb_spec x y)
         end; try reflexivity; lia.
Qed.

(** On [YYYY-MM-DD] spellings the order of strings is the order of dates. *)
Lemma lt_iso (a b : date) :
  valid a -> valid b -> JS.lt (iso a) (iso b) = earlierb a b.
Proof.
  intros (ya & [_ ma] & [_ da]) (yb & [_ mb] & [_ db]).
  unfold iso, earlierb.
  rewrite lt_four_digits, lt_same, lt_two_digits, lt_same, lt_two_digits
    by lia.
  cbn [JS.lt].
  repeat match goal with
         | |- context [?x <? ?y] => destruct (Nat.ltb_spec x y)
         | |- context [?x =? ?y] => destruct (Nat.eqb_spec x y)
         end; try reflexivity; lia.
Qed.

Lemma number_two_digits (n : nat) :
  n < 100 -> number [digit (n / 10); digit (n mod 10)] = Some n.
Proof.
  intros h. destruct (two_digit_parts n h) as (n1 & n0 & en).
  unfold number. cbn [fold_left]. rewrite !digit_of_digit by assumption.
  f_equal. lia.
Qed.

Lemma number_four_digits (n : nat) :
  n < 100 * 100 ->
  number [digit (n / 100 / 10); digit ((n / 100) mod 10);
          digit (n mod 100 / 10); digit ((n mod 100) mod 10)] = Some n.
Proof.
  intros h. destruct (four_digit_parts n h) as (n1 & n0 & en).
  destruct (two_digit_parts _ n1) as (a & b & e1).
  destruct (two_digit_parts _ n0) as (c & d & e0).
  unfold number. cbn [fold_left]. rewrite !digit_of_digit by assumption.
  f_equal. lia.
Qed.

(** The [YYYY-MM-DD] spelling of a date reads back as that date. *)
Lemma parse_iso (d : date) : valid d -> parse (iso d) = Some d.
Proof.
  intros (y & [m1 m12] & [d1 d31]).
  unfold parse, iso, four_digits, two_digits.
  cbn [list_ascii_of_string Ascii.eqb Bool.eqb andb].
  rewrite number_four_digits, !number_two_digits by lia.
  unfold make, in_range.
  replace (1 <=? month d) with true by (symmetry; apply Nat.leb_le; lia).
  replace (month d <=? 12) with true by (symmetry; apply Nat.leb_le; lia).
  replace (1 <=? day d) with true by (symmetry; apply Nat.leb_le; lia).
  replace (day d <=? 31) with true by (symmetry; apply Nat.leb_le; lia).
  now destruct d.
Qed.

End DateFacts.

Lemma instances_body {A : Type} (v : A) (others : list (option A)) :
  In (Some v) (instances (Some v) others).
Proof.
  unfold instances. simpl. now left.
Qed.

Lemma instances_nowhere {A : Type} (in_body : option A) :
  instances in_body [None; None; None; None] = [in_body].
Proof. now destruct in_body. Qed.

Lemma instances_not_nil {A : Type} (in_body : option A) (others : list (option A)) :
  instances in_body others <> [].
Proof.
  unfold instances. destruct (filter defined (in_body :: others)); discriminate.
Qed.

Lemma on_each_nil {A : Type} (values : list A) (check : A -> list string) :
  on_each values check = [] <-> Forall (fun v => check v = []) values.
Proof.
  unfold on_each. induction values as [|v r IH]; simpl.
  - split; [constructor | reflexivity].
  - split.
    + intros h. apply app_eq_nil in h. destruct h as [hv hr].
      constructor; [exact hv | now apply IH].
    + intros h. inversion h as [|x xs hv hr]; subst.
      rewrite hv. now apply IH.
Qed.

Lemma on_each_In {A : Type} (values : list A) (check : A -> list string)
  (v : A) (msg : string) :
  In v values -> In msg (check v) -> In msg (on_each values check).
Proof.
  intros hv hm. unfold on_each. apply in_flat_map. now exists v.
Qed.

(** A [from] of the body that fails the date check is reported. *)
Lemma experience_dates_reported (el : Elsewhere) (b : ExperienceBody) (v : string) :
  xb_from b = Some v ->
  from_before_to (Some v) (xb_to b) = false ->
  In from_msg (validate_experience el b).
Proof.
  intros hf bad. unfold validate_experience. rewrite !in_app_iff. do 3 right.
  apply on_each_In with (Some v).
  - rewrite hf. apply instances_body.
  - rewrite bad. now left.
Qed.

Lemma education_dates_reported (el : Elsewhere) (b : EducationBody) (v : string) :
  eb_from b = Some v ->
  from_before_to (Some v) (eb_to b) = false ->
  In from_msg (validate_education el b).
Proof.
  intros hf bad. unfold validate_education. rewrite !in_app_iff. do 4 right.
  apply on_each_In with (Some v).
  - rewrite hf. apply instances_body.
  - rewrite bad. now left.
Qed.

Lemma put_experience_invalid (el : Elsewhere) (db : DB) (uid fresh : Id) (body : ExperienceBody)
  (msg : string) :
  In msg (validate_experience el body) ->
  put_experience el uid body fresh db
  = (Ok (json 400 (JErrors (validate_experience el body))), db).
Proof.
  intros hin. unfold put_experience.
  destruct (validate_experience el body); [destruct hin | reflexivity].
Qed.

Lemma iso_truthy (d : Date.date) : JS.truthy (Some (Date.iso d)) = true.
Proof. reflexivity. Qed.

(** Where the date check does what it is meant to do: when both dates are
    written [YYYY-MM-DD] and the from-date is not chronologically earlier
    than the to-date, the request is answered 400 with the validation
    errors, the date message among them, and the collection is left as it
    was. *)
Theorem put_experience_rejects_unordered_dates (el : Elsewhere) (db : DB) (uid fresh : Id)
  (body : ExperienceBody) (f t : Date.date) :
  Date.valid f -> Date.valid t ->
  xb_from body = Some (Date.iso f) ->
  xb_to body = Some (Date.iso t) ->
  ~ Date.earlier f t ->
  exists errors,
    In from_msg errors
    /\ put_experience el uid body fresh db = (Ok (json 400 (JErrors errors)), db).
Proof.
  intros vf vt hfrom hto late.
  assert (hin : In from_msg (validate_experience el body)).
  { apply experience_dates_reported with (Date.iso f); [exact hfrom|].
    unfold from_before_to. rewrite hto, iso_truthy.
    unfold js_lt. rewrite lt_iso by assumption.
    unfold Date.earlier in late.
    destruct (Date.earlierb f t); [congruence | reflexivity]. }
  exists (validate_experience el body). split; [exact hin|].
  now apply put_experience_invalid with from_msg.
Qed.

Lemma put_experience_rejects_unordered_dates_witness :
  exists errors,
    In from_msg errors
    /\ put_experience nowhere Sample.bob
         (mkExperienceBody (Some "Engineer") (Some "Acme") None
            (Some "2020-01-01") (Some "2019-01-01") None None)
         Sample.id3 [Sample.bob_profile]
       = (Ok (json 400 (JErrors errors)), [Sample.bob_profile]).
Proof.
  refine (put_experience_rejects_unordered_dates nowhere [Sample.bob_profile]
            Sample.bob Sample.id3
            (mkExperienceBody (Some "Engineer") (Some "Acme") None
               (Some "2020-01-01") (Some "2019-01-01") None None)
            (Date.mk 2020 1 1) (Date.mk 2019 1 1) _ _ eq_refl eq_refl _).
  - unfold Date.valid. simpl. lia.
  - unfold Date.valid. simpl. lia.
  - unfold Date.earlier. vm_compute. discriminate.
Defined.

(** C8. The failing input.  ["2020-01"] and ["2020-01-01"] are the same
    day, so the from-date is not chronologically earlier than the to-date;
    the validator compares the two strings, ["2020-01" < "2020-01-01"]
    holds for strings, validation passes and the entry is added instead of
    the request being rejected. *)
Theorem put_experience_accepts_unordered_dates :
  Date.parse_field (xb_from same_day_job) = Some (Date.mk 2020 1 1)
  /\ Date.parse_field (xb_to same_day_job) = Some (Date.mk 2020 1 1)
  /\ ~ Date.earlier (Date.mk 2020 1 1) (Date.mk 2020 1 1)
  /\ validate_experience nowhere same_day_job = []
  /\ exists p',
      put_experience nowhere Sample.bob same_day_job Sample.id3
        [Sample.bob_profile]
      = (Ok (json 200 (JProfile (Some p'))), [p'])
      /\ experience p'
         = newExp Sample.id3 same_day_job :: experience Sample.bob_profile.
Proof.
  split; [reflexivity|]. split; [reflexivity|].
  split; [unfold Date.earlier; vm_compute; discriminate|].
  split; [reflexivity|].
  eexists. split; reflexivity.
Qed.

(** Hence the date-ordering sentence does not hold of the handler. *)
Lemma date_order_claim_fails : ~ date_order_claim.
Proof.
  intros claim.
  destruct (claim nowhere [Sample.bob_profile] Sample.bob Sample.id3
              same_day_job (Date.mk 2020 1 1) (Date.mk 2020 1 1))
    as [errors run].
  - vm_compute. reflexivity.
  - vm_compute. reflexivity.
  - unfold Date.earlier. vm_compute. discriminate.
  - vm_compute in run. discriminate run.
Qed.

(** ** End-to-end scenarios on the collection *)

Lemma replace_doc_twice (p p1 : Profile) (db : DB) :
  _id p = _id p1 -> replace_doc p (replace_doc p1 db) = replace_doc p db.
Proof.
  intros e. induction db as [|q r IH]; simpl; [reflexivity|].
  rewrite e.
  destruct (String.eqb (_id q) (_id p1)) eqn:Q; simpl; rewrite e.
  - now rewrite String.eqb_refl.
  - now rewrite Q, IH.
Qed.

(** Deleting by an identifier no entry carries is answered 200 with the
    profile as it was, and the collection is unchanged. *)
Lemma delete_experience_unknown_id (db : DB) (uid eid : Id) (p : Profile) :
  NoDup (map _id db) ->
  find (fun q => String.eqb (user q) uid) db = Some p ->
  (forall e, In e (experience p) -> exp_id e <> eid) ->
  delete_experience uid eid db = (Ok (json 200 (JProfile (Some p))), db).
Proof.
  intros nd hf absent.
  rewrite (delete_experience_found db uid eid p hf).
  rewrite (@removeByID_absent _ Experience_SubDoc eid (experience p) absent),
    set_experience_same.
  rewrite replace_doc_same; [reflexivity | assumption |].
  now apply find_some in hf.
Qed.

Lemma delete_education_unknown_id (db : DB) (uid eid : Id) (p : Profile) :
  NoDup (map _id db) ->
  find (fun q => String.eqb (user q) uid) db = Some p ->
  (forall e, In e (education p) -> edu_id e <> eid) ->
  delete_education uid eid db = (Ok (json 200 (JProfile (Some p))), db).
Proof.
  intros nd hf absent.
  rewrite (delete_education_found db uid eid p hf).
  rewrite (@removeByID_absent _ Education_SubDoc eid (education p) absent),
    set_education_same.
  rewrite replace_doc_same; [reflexivity | assumption |].
  now apply find_some in hf.
Qed.

(** Adding an experience entry and deleting it by the identifier it was
    given restores the profile and the collection. *)
Lemma experience_add_then_delete (el : Elsewhere) (db : DB) (uid fresh : Id)
  (body : ExperienceBody) (p : Profile) :
  NoDup (map _id db) ->
  find (fun q => String.eqb (user q) uid) db = Some p ->
  validate_experience el body = [] ->
  (forall e, In e (experience p) -> exp_id e <> fresh) ->
  exists p1 db1,
    put_experience el uid body fresh db = (Ok (json 200 (JProfile (Some p1))), db1)
    /\ experience p1 = newExp fresh body :: experience p
    /\ delete_experience uid fresh db1 = (Ok (json 200 (JProfile (Some p))), db).
Proof.
  intros nd hf v absent.
  assert (hu : user p = uid).
  { apply find_some in hf. destruct hf as [_ hf]. now apply String.eqb_eq. }
  pose (p1 := set_experience p (newExp fresh body :: experience p)).
  exists p1, (replace_doc p1 db).
  split; [now apply put_experience_found|]. split; [reflexivity|].
  rewrite (delete_experience_found (replace_doc p1 db) uid fresh p1)
    by now apply find_replace_doc with (p := p).
  assert (back : set_experience p1 (removeByID fresh (experience p1)) = p).
  { unfold p1, removeByID. simpl. rewrite String.eqb_refl. simpl.
    fold (removeByID fresh (experience p)).
    rewrite (@removeByID_absent _ Experience_SubDoc fresh (experience p) absent).
    now destruct p. }
  rewrite back, replace_doc_twice by reflexivity.
  rewrite replace_doc_same; [reflexivity | assumption |].
  now apply find_some in hf.
Qed.

Example split_example : JS.split "," "a, b ,c" = ["a"; " b "; "c"].
Proof. reflexivity. Qed.

Example trim_example : JS.trim "  b c  " = "b c".
Proof. reflexivity. Qed.

Example lt_example : JS.lt "2020-01-01" "2019-01-01" = false.
Proof. reflexivity. Qed.

Example lt_prefix_example : JS.lt "2020-01" "2020-01-01" = true.
Proof. reflexivity. Qed.

(** * Further properties of the handlers *)

(** ** More on the collection *)

Lemma find_split (sel : Profile -> bool) (db : DB) (p : Profile) :
  find sel db = Some p ->
  exists pre post,
    db = pre ++ p :: post /\ (forall q, In q pre -> sel q = false) /\ sel p = true.
Proof.
  induction db as [|x r IH]; simpl; [discriminate|].
  destruct (sel x) eqn:S.
  - intros [= ->]. exists [], r. repeat split; [intros q [] | exact S].
  - intros h. destruct (IH h) as (pre & post & -> & no & yes).
    exists (x :: pre), post. repeat split; [|exact yes].
    intros q [<-|hq]; [exact S | now apply no].
Qed.

Lemma find_none_iff (sel : Profile -> bool) (db : DB) :
  find sel db = None <-> (forall q, In q db -> sel q = false).
Proof.
  split.
  - intros h q hq. now apply (find_none sel db h).
  - induction db as [|x r IH]; simpl; intros no; [reflexivity|].
    rewrite (no x) by now left. apply IH. intros q hq. apply no. now right.
Qed.

Lemma find_here (sel : Profile -> bool) (pre post : DB) (p : Profile) :
  (forall q, In q pre -> sel q = false) -> sel p = true ->
  find sel (pre ++ p :: post) = Some p.
Proof.
  induction pre as [|x r IH]; simpl; intros no yes.
  - now rewrite yes.
  - rewrite (no x) by now left. apply IH; [|exact yes].
    intros q hq. apply no. now right.
Qed.

(** With unique identifiers a save replaces the document where it stands. *)
Lemma replace_doc_at (pre post : DB) (p p' : Profile) :
  NoDup (map _id (pre ++ p :: post)) -> _id p' = _id p ->
  replace_doc p' (pre ++ p :: post) = pre ++ p' :: post.
Proof.
  intros nd e. induction pre as [|x r IH]; simpl in *.
  - now rewrite e, String.eqb_refl.
  - inversion nd as [|y ys notin nd']; subst.
    destruct (String.eqb_spec (_id x) (_id p')) as [e'|_].
    + exfalso. apply notin. rewrite e', e, map_app. apply in_or_app. right.
      now left.
    + f_equal. now apply IH.
Qed.

(** What a successful [update_first] did: the first selected document, and
    that one only, was updated where it stands. *)
Lemma update_first_inv (sel : Profile -> bool) (upd : Profile -> Profile)
  (db db' : DB) (p' : Profile) :
  update_first sel upd db = Some (p', db') ->
  exists pre q post,
    db = pre ++ q :: post /\ (forall x, In x pre -> sel x = false)
    /\ sel q = true /\ p' = upd q /\ db' = pre ++ upd q :: post.
Proof.
  revert db'. induction db as [|x r IH]; simpl; intros db' h; [discriminate|].
  destruct (sel x) eqn:S.
  - injection h as <- <-. exists [], x, r. repeat split; auto. intros y [].
  - destruct (update_first sel upd r) as [[p0 r']|]; [|discriminate].
    injection h as -> <-.
    destruct (IH r' eq_refl) as (pre & q & post & -> & no & yes & -> & ->).
    exists (x :: pre), q, post. repeat split; auto.
    intros y [<-|hy]; [exact S | now apply no].
Qed.

Lemma update_first_none_inv (sel : Profile -> bool) (upd : Profile -> Profile)
  (db : DB) :
  update_first sel upd db = None -> forall q, In q db -> sel q = false.
Proof.
  induction db as [|x r IH]; simpl; intros h q hq; [destruct hq|].
  destruct (sel x) eqn:S; [discriminate|].
  destruct (update_first sel upd r) as [[p0 r']|]; [discriminate|].
  destruct hq as [<-|hq]; [exact S | now apply IH].
Qed.

(** An update that keeps its own selection and is idempotent on documents
    can be repeated without effect. *)
Lemma update_first_again (sel : Profile -> bool) (upd : Profile -> Profile)
  (db db' : DB) (p' : Profile) :
  (forall q, sel q = true -> sel (upd q) = true) ->
  (forall q, sel q = true -> upd (upd q) = upd q) ->
  update_first sel upd db = Some (p', db') ->
  update_first sel upd db' = Some (p', db').
Proof.
  intros keep idem h.
  destruct (update_first_inv sel upd db db' p' h)
    as (pre & q & post & -> & no & yes & -> & ->).
  rewrite update_first_here by auto.
  now rewrite idem.
Qed.

Lemma owner_eqb (p : Profile) (uid : Id) :
  String.eqb (user p) uid = true <-> user p = uid.
Proof. apply String.eqb_eq. Qed.

Lemma owner_neqb (p : Profile) (uid : Id) :
  String.eqb (user p) uid = false <-> user p <> uid.
Proof. apply String.eqb_neq. Qed.

(** ** POST api/profile *)

Section UpsertMore.

Variable normalize : string -> result string.
Variable notEmpty_array : list string -> nat.

Let upsert := post_profile normalize notEmpty_array.

Lemma post_profile_run (el : Elsewhere) (uid fresh : Id) (body : ProfileBody) (db : DB)
  (f : ProfileFields) :
  validate_profile notEmpty_array el body = [] ->
  build_profileFields normalize uid body = Ok f ->
  upsert el uid body fresh db
  = match update_first (fun p => String.eqb (user p) uid) (set_fields f) db with
    | Some (p, db') => (Ok (json 200 (JProfile (Some p))), db')
    | None => (Ok (json 200 (JProfile (Some (new_profile fresh f)))),
               db ++ [new_profile fresh f])
    end.
Proof.
  intros v b. unfold upsert, post_profile. rewrite v, b.
  unfold try_catch, bind, lift, ret, Profile_upsert.
  now destruct (update_first _ (set_fields f) db) as [[p db']|].
Qed.

Lemma post_profile_invalid (el : Elsewhere) (uid fresh : Id) (body : ProfileBody) (db : DB) :
  validate_profile notEmpty_array el body <> [] ->
  upsert el uid body fresh db
  = (Ok (json 400 (JErrors (validate_profile notEmpty_array el body))), db).
Proof.
  intros ne. unfold upsert, post_profile.
  destruct (validate_profile notEmpty_array el body); [congruence | reflexivity].
Qed.

(** The three ways a request to the upsert can end. *)
Lemma post_profile_cases (el : Elsewhere) (uid fresh : Id) (body : ProfileBody) (db : DB) :
  (validate_profile notEmpty_array el body <> []
   /\ upsert el uid body fresh db
      = (Ok (json 400 (JErrors (validate_profile notEmpty_array el body))), db))
  \/ (validate_profile notEmpty_array el body = []
      /\ exists e, build_profileFields normalize uid body = Throw e
                   /\ upsert el uid body fresh db = (Throw e, db))
  \/ (validate_profile notEmpty_array el body = []
      /\ exists f, build_profileFields normalize uid body = Ok f
                   /\ upsert el uid body fresh db
                      = match update_first (fun p => String.eqb (user p) uid)
                                (set_fields f) db with
                        | Some (p, db') => (Ok (json 200 (JProfile (Some p))), db')
                        | None => (Ok (json 200 (JProfile (Some (new_profile fresh f)))),
                                   db ++ [new_profile fresh f])
                        end).
Proof.
  destruct (validate_profile notEmpty_array el body) as [|m l] eqn:V.
  - right. destruct (build_profileFields normalize uid body) as [f|e] eqn:B.
    + right. split; [reflexivity|]. exists f. split; [reflexivity|].
      now apply post_profile_run.
    + left. split; [reflexivity|]. exists e. split; [reflexivity|].
      now apply post_profile_throws.
  - left. split; [discriminate|]. rewrite <- V. apply post_profile_invalid.
    rewrite V. discriminate.
Qed.

Lemma post_profile_ok_inv (el : Elsewhere) (uid fresh : Id) (body : ProfileBody) (db db1 : DB)
  (p : Profile) :
  upsert el uid body fresh db = (Ok (json 200 (JProfile (Some p))), db1) ->
  validate_profile notEmpty_array el body = []
  /\ exists f,
      build_profileFields normalize uid body = Ok f
      /\ (update_first (fun q => String.eqb (user q) uid) (set_fields f) db
          = Some (p, db1)
          \/ (update_first (fun q => String.eqb (user q) uid) (set_fields f) db
              = None
              /\ p = new_profile fresh f /\ db1 = db ++ [p])).
Proof.
  intros run.
  destruct (post_profile_cases el uid fresh body db)
    as [[_ r] | [[_ (e & _ & r)] | [v (f & b & r)]]];
    rewrite r in run; try discriminate.
  split; [exact v|]. exists f. split; [exact b|].
  destruct (update_first _ (set_fields f) db) as [[p0 db0]|].
  - left. now injection run as -> ->.
  - right. injection run as <- <-. auto.
Qed.

Lemma build_profileFields_user (uid : Id) (body : ProfileBody) (f : ProfileFields) :
  build_profileFields normalize uid body = Ok f -> pf_user f = uid.
Proof.
  unfold build_profileFields.
  destruct (website_field normalize (b_website body)); [|discriminate].
  destruct (skills_field (b_skills body)); [|discriminate].
  cbn [and_then].
  repeat match goal with
         | |- context [and_then (social_field normalize ?v) _] =>
             destruct (social_field normalize v); [|discriminate];
             cbn [and_then]
         end.
  now intros [= <-].
Qed.

End UpsertMore.

Lemma instances_In {A : Type} (x : A) (in_body : option A)
  (others : list (option A)) :
  In (Some x) (in_body :: others) -> In (Some x) (instances in_body others).
Proof.
  intros hin. unfold instances.
  assert (f : In (Some x) (filter defined (in_body :: others)))
    by (apply filter_In; now split).
  destruct (filter defined (in_body :: others)); [destruct f | exact f].
Qed.

Lemma instances_undefined {A : Type} (others : list (option A)) :
  Forall (fun v => v = None) others -> instances None others = [None].
Proof.
  intros no. unfold instances. simpl.
  replace (filter defined others) with (@nil (option A)); [reflexivity|].
  induction no as [|v r -> _ IH]; simpl; [reflexivity | exact IH].
Qed.

(** X1. POST api/profile checks the request before anything else.  A
    status that no place of the request defines (body, cookies, headers,
    route parameters, query string), or that is the empty string in a place
    that defines it, is answered 400 with "Status is required" in the error
    list, and likewise for skills, whatever the other fields are (a missing
    website included); nothing is written. *)
Theorem post_profile_validation_gate (normalize : string -> result string)
  (notEmpty_array : list string -> nat) (el : Elsewhere)
  (uid fresh : Id) (body : ProfileBody) (db : DB) :
  ((b_status body = None /\ Forall (fun v => v = None) (located el "status"))
   \/ In (Some "") (b_status body :: located el "status") ->
   exists errors,
     In "Status is required" errors
     /\ post_profile normalize notEmpty_array el uid body fresh db
        = (Ok (json 400 (JErrors errors)), db))
  /\ ((b_skills body = None /\ Forall (fun v => v = None) (located el "skills"))
      \/ b_skills body = Some (SkillsString "")
      \/ In (Some "") (located el "skills") ->
      exists errors,
        In "Skills is required" errors
        /\ post_profile normalize notEmpty_array el uid body fresh db
           = (Ok (json 400 (JErrors errors)), db)).
Proof.
  split.
  - intros st.
    assert (hin : In "Status is required"
                    (validate_profile notEmpty_array el body)).
    { unfold validate_profile. apply in_or_app. left.
      destruct st as [[no nos] | emp].
      - rewrite no, (instances_undefined _ nos). now left.
      - apply on_each_In with (Some ""); [now apply instances_In | now left]. }
    exists (validate_profile notEmpty_array el body). split; [exact hin|].
    apply post_profile_invalid. intros e. now rewrite e in hin.
  - intros sk.
    assert (hin : In "Skills is required"
                    (validate_profile notEmpty_array el body)).
    { unfold validate_profile. apply in_or_app. right.
      destruct sk as [[no nos] | [emp | emp]].
      - rewrite no, instances_undefined; [now left|].
        apply Forall_map. eapply Forall_impl; [|exact nos].
        now intros v ->.
      - apply on_each_In with (Some (SkillsString "")); [|now left].
        rewrite emp. apply instances_body.
      - apply on_each_In with (Some (SkillsString "")); [|now left].
        apply instances_In. right.
        change (Some (SkillsString "")) with (option_map SkillsString (Some "")).
        now apply in_map. }
    exists (validate_profile notEmpty_array el body). split; [exact hin|].
    apply post_profile_invalid. intros e. now rewrite e in hin.
Qed.

Lemma post_profile_validation_gate_witness :
  exists errors,
    In "Status is required" errors
    /\ post_profile Sample.normalize Sample.notEmpty_array
         (mkElsewhere (fun _ => None) (fun _ => None) (fun _ => None)
            (fun k => if String.eqb k "status" then Some "" else None))
         Sample.alice
         (mkProfileBody None None None (Some "Developer")
            (Some (SkillsString "js")) None None None None None None None)
         Sample.id3 [Sample.bob_profile]
       = (Ok (json 400 (JErrors errors)), [Sample.bob_profile]).
Proof.
  refine (proj1 (post_profile_validation_gate Sample.normalize
                   Sample.notEmpty_array
                   (mkElsewhere (fun _ => None) (fun _ => None) (fun _ => None)
                      (fun k => if String.eqb k "status" then Some "" else None))
                   Sample.alice Sample.id3
                   (mkProfileBody None None None (Some "Developer")
                      (Some (SkillsString "js")) None None None None None None
                      None)
                   [Sample.bob_profile]) _).
  right. do 4 right. now left.
Defined.

(** X2. An upsert for an owner who has a profile rewrites that document
    where it stands: the document keeps its identifier, its experience and
    its education, and every other document of the collection is left as it
    was. *)
Theorem post_profile_updates_in_place (normalize : string -> result string)
  (notEmpty_array : list string -> nat) (el : Elsewhere)
  (uid fresh : Id) (body : ProfileBody) (f : ProfileFields)
  (pre post : DB) (q : Profile) :
  validate_profile notEmpty_array el body = [] ->
  build_profileFields normalize uid body = Ok f ->
  (forall x, In x pre -> user x <> uid) ->
  user q = uid ->
  exists p,
    post_profile normalize notEmpty_array el uid body fresh (pre ++ q :: post)
    = (Ok (json 200 (JProfile (Some p))), pre ++ p :: post)
    /\ _id p = _id q /\ user p = uid
    /\ experience p = experience q /\ education p = education q
    /\ skills p = pf_skills f /\ status p = b_status body.
Proof.
  intros v b no yes.
  exists (set_fields f q).
  rewrite (post_profile_run normalize notEmpty_array el uid fresh body _ f v b).
  rewrite update_first_here.
  - repeat split; try reflexivity.
    + simpl. now apply build_profileFields_user with normalize body.
    + simpl. revert b. unfold build_profileFields.
      destruct (website_field normalize (b_website body)); [|discriminate].
      destruct (skills_field (b_skills body)); [|discriminate].
      cbn [and_then].
      repeat match goal with
             | |- context [and_then (social_field normalize ?x) _] =>
                 destruct (social_field normalize x); [|discriminate];
                 cbn [and_then]
             end.
      now intros [= <-].
  - intros x hx. apply owner_neqb. now apply no.
  - now apply owner_eqb.
Qed.

Lemma post_profile_updates_in_place_witness :
  exists p,
    post_profile Sample.normalize Sample.notEmpty_array nowhere Sample.bob
      (Sample.upsert_body (SkillsString "js, css")) Sample.id3
      [Sample.bob_profile]
    = (Ok (json 200 (JProfile (Some p))), [p])
    /\ _id p = Sample.id1
    /\ experience p = [newExp Sample.id2 Sample.job].
Proof.
  destruct (post_profile_updates_in_place Sample.normalize
              Sample.notEmpty_array nowhere Sample.bob Sample.id3
              (Sample.upsert_body (SkillsString "js, css")) _
              [] [] Sample.bob_profile eq_refl eq_refl
              (fun x (h : In x []) => match h with end) eq_refl)
    as (p & run & hid & _ & hexp & _).
  exists p. split; [exact run|]. split; [exact hid | exact hexp].
Defined.

(** X3. An upsert for an owner without a profile appends one new document
    to the collection: it carries the generated identifier, the owner, and
    empty experience and education lists; the documents already stored are
    left as they were. *)
Theorem post_profile_inserts (normalize : string -> result string)
  (notEmpty_array : list string -> nat) (el : Elsewhere)
  (uid fresh : Id) (body : ProfileBody) (f : ProfileFields) (db : DB) :
  validate_profile notEmpty_array el body = [] ->
  build_profileFields normalize uid body = Ok f ->
  (forall x, In x db -> user x <> uid) ->
  exists p,
    post_profile normalize notEmpty_array el uid body fresh db
    = (Ok (json 200 (JProfile (Some p))), db ++ [p])
    /\ _id p = fresh /\ user p = uid
    /\ experience p = [] /\ education p = [].
Proof.
  intros v b no.
  exists (new_profile fresh f).
  rewrite (post_profile_run normalize notEmpty_array el uid fresh body _ f v b).
  rewrite update_first_none.
  - repeat split. simpl. now apply build_profileFields_user with normalize body.
  - intros x hx. apply owner_neqb. now apply no.
Qed.

Lemma post_profile_inserts_witness :
  exists p,
    post_profile Sample.normalize Sample.notEmpty_array nowhere Sample.alice
      (Sample.upsert_body (SkillsString "js, css")) Sample.id3
      [Sample.bob_profile]
    = (Ok (json 200 (JProfile (Some p))), [Sample.bob_profile] ++ [p])
    /\ _id p = Sample.id3 /\ user p = Sample.alice
    /\ experience p = [] /\ education p = [].
Proof.
  refine (post_profile_inserts Sample.normalize Sample.notEmpty_array nowhere
            Sample.alice Sample.id3
            (Sample.upsert_body (SkillsString "js, css")) _
            [Sample.bob_profile] eq_refl eq_refl _).
  intros x [<-|[]]. discriminate.
Defined.

Lemma NoDup_snoc {A : Type} (l : list A) (a : A) :
  NoDup l -> ~ In a l -> NoDup (l ++ [a]).
Proof.
  induction l as [|x r IH]; simpl; intros nd notin.
  - constructor; [intros [] | constructor].
  - inversion nd as [|y ys nx nd']; subst. constructor.
    + rewrite in_app_iff. intros [h|[h|[]]]; [now apply nx | subst; auto].
    + apply IH; [assumption | intros h; apply notin; now right].
Qed.

(** X4. POST api/profile keeps the collection well formed, however the
    request ends: if no two documents share an owner or an identifier, and
    the generated identifier is new, the same holds afterwards. *)
Theorem post_profile_keeps_unique_owners (normalize : string -> result string)
  (notEmpty_array : list string -> nat) (el : Elsewhere)
  (uid fresh : Id) (body : ProfileBody) (db db' : DB) (r : result response) :
  NoDup (map user db) -> NoDup (map _id db) -> ~ In fresh (map _id db) ->
  post_profile normalize notEmpty_array el uid body fresh db = (r, db') ->
  NoDup (map user db') /\ NoDup (map _id db').
Proof.
  intros nu ni nf run.
  destruct (post_profile_cases normalize notEmpty_array el uid fresh body db)
    as [[_ e] | [[_ (x & _ & e)] | [_ (f & b & e)]]];
    rewrite e in run.
  - injection run as _ <-. auto.
  - injection run as _ <-. auto.
  - pose proof (build_profileFields_user normalize uid body f b) as hu.
    destruct (update_first _ (set_fields f) db) as [[p0 db0]|] eqn:U.
    + injection run as _ <-.
      destruct (update_first_inv _ _ _ _ _ U)
        as (pre & q & post & -> & _ & yes & _ & ->).
      apply owner_eqb in yes.
      rewrite !map_app in *. simpl in *. rewrite hu, <- yes. auto.
    + injection run as _ <-.
      pose proof (update_first_none_inv _ _ _ U) as no.
      rewrite !map_app. simpl. rewrite hu. split.
      * apply NoDup_snoc; [assumption|].
        intros h. apply in_map_iff in h. destruct h as (x & hx & hin).
        apply no in hin. apply owner_neqb in hin. contradiction.
      * now apply NoDup_snoc.
Qed.

Lemma post_profile_keeps_unique_owners_witness :
  NoDup (map user
           (snd (post_profile Sample.normalize Sample.notEmpty_array nowhere Sample.alice
                   (Sample.upsert_body (SkillsString "js")) Sample.id3
                   [Sample.bob_profile])))
  /\ NoDup (map _id
              (snd (post_profile Sample.normalize Sample.notEmpty_array nowhere
                      Sample.alice (Sample.upsert_body (SkillsString "js"))
                      Sample.id3 [Sample.bob_profile]))).
Proof.
  refine (post_profile_keeps_unique_owners Sample.normalize
            Sample.notEmpty_array nowhere Sample.alice Sample.id3
            (Sample.upsert_body (SkillsString "js")) [Sample.bob_profile]
            _ _ _ _ _ (surjective_pairing _)).
  - constructor; [intros [] | constructor].
  - constructor; [intros [] | constructor].
  - intros [h|[]]. discriminate h.
Defined.

(** X5. The upsert is idempotent: repeating a successful request gives the
    same profile again and leaves the collection as the first request left
    it, whatever identifier would be generated the second time. *)
Theorem post_profile_idempotent (normalize : string -> result string)
  (notEmpty_array : list string -> nat) (el : Elsewhere)
  (uid fresh fresh' : Id) (body : ProfileBody) (db db1 : DB) (p : Profile) :
  post_profile normalize notEmpty_array el uid body fresh db
  = (Ok (json 200 (JProfile (Some p))), db1) ->
  post_profile normalize notEmpty_array el uid body fresh' db1
  = (Ok (json 200 (JProfile (Some p))), db1).
Proof.
  intros run.
  destruct (post_profile_ok_inv normalize notEmpty_array el uid fresh body db db1 p run)
    as (v & f & b & [U | (U & -> & ->)]).
  - rewrite (post_profile_run normalize notEmpty_array el uid fresh' body db1 f v b).
    rewrite (update_first_again _ _ db db1 p); [reflexivity | | | exact U].
    + intros q _. simpl. apply String.eqb_eq.
      now apply build_profileFields_user with normalize body.
    + intros q _. reflexivity.
  - rewrite (post_profile_run normalize notEmpty_array el uid fresh' body _ f v b).
    rewrite update_first_here; [reflexivity | |].
    + now apply update_first_none_inv with (set_fields f).
    + simpl. apply String.eqb_eq.
      now apply build_profileFields_user with normalize body.
Qed.

Lemma post_profile_idempotent_witness :
  post_profile Sample.normalize Sample.notEmpty_array nowhere Sample.alice
    (Sample.upsert_body (SkillsString "js")) Sample.id2
    (snd (post_profile Sample.normalize Sample.notEmpty_array nowhere Sample.alice
            (Sample.upsert_body (SkillsString "js")) Sample.id3
            [Sample.bob_profile]))
  = post_profile Sample.normalize Sample.notEmpty_array nowhere Sample.alice
      (Sample.upsert_body (SkillsString "js")) Sample.id3 [Sample.bob_profile].
Proof.
  exact (post_profile_idempotent Sample.normalize Sample.notEmpty_array nowhere
           Sample.alice Sample.id3 Sample.id2
           (Sample.upsert_body (SkillsString "js")) [Sample.bob_profile] _ _
           eq_refl).
Defined.

(** X6. After a successful upsert, GET api/profile/me of the same owner
    answers 200 with the profile the upsert returned, its [user] field
    populated: the user document stored under the owner's identifier (its
    identifier, name and avatar), or [null] when there is none. *)
Theorem post_profile_then_get_me (normalize : string -> result string)
  (notEmpty_array : list string -> nat) (el : Elsewhere) (users : list User)
  (uid fresh : Id) (body : ProfileBody) (db db1 : DB) (p : Profile) :
  post_profile normalize notEmpty_array el uid body fresh db
  = (Ok (json 200 (JProfile (Some p))), db1) ->
  get_me users uid db1
  = (Ok (json 200
           (JPopulated
              (mkPopulated p
                 (find (fun u => String.eqb (user_id u) uid) users)))),
     db1)
  /\ user p = uid.
Proof.
  intros run.
  destruct (post_profile_ok_inv normalize notEmpty_array el uid fresh body db db1 p run)
    as (v & f & b & U).
  pose proof (build_profileFields_user normalize uid body f b) as hu.
  assert (hf : find (fun q => String.eqb (user q) uid) db1 = Some p
               /\ user p = uid).
  { destruct U as [U | (U & -> & ->)].
    - destruct (update_first_inv _ _ _ _ _ U)
        as (pre & q & post & -> & no & yes & -> & ->).
      split; [|exact hu].
      apply find_here; [exact no|]. simpl. now apply String.eqb_eq.
    - split; [|exact hu]. apply find_here.
      + now apply update_first_none_inv with (set_fields f).
      + simpl. now apply String.eqb_eq. }
  destruct hf as [hf hp]. split; [|exact hp].
  unfold get_me, Profile_findOne_populate. run_handler. rewrite hf. simpl.
  unfold populate. now rewrite hp.
Qed.

Lemma post_profile_then_get_me_witness :
  exists p db1,
    post_profile Sample.normalize Sample.notEmpty_array nowhere Sample.bob
      (Sample.upsert_body (SkillsString "js, css")) Sample.id3
      [Sample.bob_profile]
    = (Ok (json 200 (JProfile (Some p))), db1)
    /\ get_me Sample.people Sample.bob db1
       = (Ok (json 200
                (JPopulated
                   (mkPopulated p (Some (mkUser Sample.bob "Bob" "b.png"))))),
          db1).
Proof.
  eexists. eexists. split; [reflexivity|].
  exact (proj1 (post_profile_then_get_me Sample.normalize Sample.notEmpty_array
                  nowhere Sample.people Sample.bob Sample.id3
                  (Sample.upsert_body (SkillsString "js, css"))
                  [Sample.bob_profile] _ _ eq_refl)).
Defined.

Lemma build_profileFields_inv (normalize : string -> result string)
  (uid : Id) (body : ProfileBody) (f : ProfileFields) :
  build_profileFields normalize uid body = Ok f ->
  exists w sk y t i l fb,
    website_field normalize (b_website body) = Ok w
    /\ skills_field (b_skills body) = Ok sk
    /\ social_field normalize (b_youtube body) = Ok y
    /\ social_field normalize (b_twitter body) = Ok t
    /\ social_field normalize (b_instagram body) = Ok i
    /\ social_field normalize (b_linkedin body) = Ok l
    /\ social_field normalize (b_facebook body) = Ok fb
    /\ f = mkProfileFields uid (b_company body) (b_location body) w
             (b_bio body) sk (b_status body) (b_githubusername body)
             (mkSocial y t i l fb).
Proof.
  unfold build_profileFields.
  destruct (website_field normalize (b_website body)) as [w|]; [|discriminate].
  destruct (skills_field (b_skills body)) as [sk|]; [|discriminate].
  cbn [and_then].
  destruct (social_field normalize (b_youtube body)) as [y|]; [|discriminate].
  destruct (social_field normalize (b_twitter body)) as [t|]; [|discriminate].
  destruct (social_field normalize (b_instagram body)) as [i|]; [|discriminate].
  destruct (social_field normalize (b_linkedin body)) as [l|]; [|discriminate].
  destruct (social_field normalize (b_facebook body)) as [fb|]; [|discriminate].
  cbn [and_then]. intros [= <-].
  exists w, sk, y, t, i, l, fb. repeat split; reflexivity.
Qed.

Lemma social_field_stored (normalize : string -> result string) (v stored : field) :
  social_field normalize v = Ok stored -> link_stored normalize v stored.
Proof.
  unfold social_field, link_stored. destruct (JS.truthy v).
  - destruct (normalize_value normalize v) as [u|]; [|discriminate].
    intros [= <-]. now exists u.
  - now intros [= <-].
Qed.

Lemma social_field_rejected (normalize : string -> result string) (v : field)
  (e : exn) :
  JS.truthy v = true -> normalize_value normalize v = Throw e ->
  social_field normalize v = Throw e.
Proof. intros t n. unfold social_field. now rewrite t, n. Qed.

Lemma post_profile_stored_fields (normalize : string -> result string)
  (notEmpty_array : list string -> nat) (el : Elsewhere)
  (uid fresh : Id) (body : ProfileBody) (db db1 : DB) (p : Profile) :
  post_profile normalize notEmpty_array el uid body fresh db
  = (Ok (json 200 (JProfile (Some p))), db1) ->
  exists f, build_profileFields normalize uid body = Ok f
            /\ website p = Some (pf_website f) /\ social p = pf_social f
            /\ skills p = pf_skills f.
Proof.
  intros run.
  destruct (post_profile_ok_inv normalize notEmpty_array el uid fresh body db db1 p run)
    as (_ & f & b & [U | (_ & -> & _)]); exists f.
  - destruct (update_first_inv _ _ _ _ _ U) as (pre & q & post & _ & _ & _ & -> & _).
    auto.
  - auto.
Qed.

(** X7. When the normalizer throws on the website (any value but the empty
    string is handed to it) or on a populated social link, the exception
    leaves the upsert handler: no answer is sent and nothing is written. *)
Theorem post_profile_rejected_link_escapes (normalize : string -> result string)
  (notEmpty_array : list string -> nat) (el : Elsewhere)
  (uid fresh : Id) (body : ProfileBody) (db : DB) :
  validate_profile notEmpty_array el body = [] ->
  (b_website body <> Some ""
   /\ exists e, normalize_value normalize (b_website body) = Throw e)
  \/ (exists v e,
         In v [b_youtube body; b_twitter body; b_instagram body;
               b_linkedin body; b_facebook body]
         /\ JS.truthy v = true
         /\ normalize_value normalize v = Throw e) ->
  exists e,
    post_profile normalize notEmpty_array el uid body fresh db = (Throw e, db).
Proof.
  intros v bad.
  destruct (post_profile_cases normalize notEmpty_array el uid fresh body db)
    as [[ne _] | [[_ (e & _ & r)] | [_ (f & b & _)]]].
  - contradiction.
  - now exists e.
  - exfalso.
    destruct (build_profileFields_inv normalize uid body f b)
      as (w & sk & y & t & i & l & fb & hw & _ & hy & ht & hi & hl & hfb & _).
    destruct bad as [[ne (e & n)] | (x & e & hin & tr & n)].
    + unfold website_field in hw.
      destruct (b_website body) as [[|c s]|]; congruence.
    + pose proof (social_field_rejected normalize x e tr n) as rej.
      simpl in hin.
      destruct hin as [<-|[<-|[<-|[<-|[<-|[]]]]]]; congruence.
Qed.

Lemma post_profile_rejected_link_escapes_witness :
  exists e,
    post_profile (fun s => if String.eqb s "::" then Throw (LibError "Invalid URL")
                           else Ok s)
      Sample.notEmpty_array nowhere Sample.alice
      (mkProfileBody None (Some "") None (Some "Developer")
         (Some (SkillsString "js")) None None None (Some "::") None None None)
      Sample.id3 [Sample.bob_profile]
    = (Throw e, [Sample.bob_profile]).
Proof.
  refine (post_profile_rejected_link_escapes
            (fun s => if String.eqb s "::" then Throw (LibError "Invalid URL")
                      else Ok s)
            Sample.notEmpty_array nowhere Sample.alice Sample.id3
            (mkProfileBody None (Some "") None (Some "Developer")
               (Some (SkillsString "js")) None None None (Some "::") None None
               None)
            [Sample.bob_profile] eq_refl _).
  right. exists (Some "::"), (LibError "Invalid URL").
  split; [right; left; reflexivity|]. split; reflexivity.
Defined.

(** X8. What a successful upsert stores for the links: the empty website
    is stored as the empty string and any other website as the normalizer
    returns it; each of the five social links is stored through the
    normalizer when it is populated and exactly as it came when it is empty
    or absent. *)
Theorem post_profile_links (normalize : string -> result string)
  (notEmpty_array : list string -> nat) (el : Elsewhere)
  (uid fresh : Id) (body : ProfileBody) (db db1 : DB) (p : Profile) :
  post_profile normalize notEmpty_array el uid body fresh db
  = (Ok (json 200 (JProfile (Some p))), db1) ->
  (exists w, website p = Some w
             /\ (b_website body = Some "" -> w = "")
             /\ (b_website body <> Some "" ->
                 normalize_value normalize (b_website body) = Ok w))
  /\ link_stored normalize (b_youtube body) (youtube (social p))
  /\ link_stored normalize (b_twitter body) (twitter (social p))
  /\ link_stored normalize (b_instagram body) (instagram (social p))
  /\ link_stored normalize (b_linkedin body) (linkedin (social p))
  /\ link_stored normalize (b_facebook body) (facebook (social p)).
Proof.
  intros run.
  destruct (post_profile_stored_fields normalize notEmpty_array el uid fresh body
              db db1 p run) as (f & b & hw & hs & _).
  destruct (build_profileFields_inv normalize uid body f b)
    as (w & sk & y & t & i & l & fb & ew & _ & hy & ht & hi & hl & hfb & ->).
  rewrite hs. simpl in *. split.
  - exists w. split; [exact hw|]. unfold website_field in ew.
    destruct (b_website body) as [[|c s]|]; split; congruence.
  - repeat split; now apply social_field_stored.
Qed.

Lemma post_profile_links_witness :
  exists p db1,
    post_profile Sample.normalize Sample.notEmpty_array nowhere Sample.alice
      (mkProfileBody None (Some "") None (Some "Developer")
         (Some (SkillsString "js")) None None
         (Some "youtube.com/c") (Some "") None None None)
      Sample.id3 [] = (Ok (json 200 (JProfile (Some p))), db1)
    /\ website p = Some ""
    /\ youtube (social p) = Some "https://youtube.com/c"
    /\ link_stored Sample.normalize (Some "") (twitter (social p))
    /\ link_stored Sample.normalize None (instagram (social p)).
Proof.
  eexists. eexists. split; [reflexivity|].
  destruct (post_profile_links Sample.normalize Sample.notEmpty_array nowhere
              Sample.alice Sample.id3
              (mkProfileBody None (Some "") None (Some "Developer")
                 (Some (SkillsString "js")) None None
                 (Some "youtube.com/c") (Some "") None None None)
              [] _ _ eq_refl) as (_ & _ & tw & ig & _).
  split; [reflexivity|]. split; [reflexivity|]. split; [exact tw | exact ig].
Defined.

(** ** The skills of an upsert, continued *)

Lemma split_length (sep : ascii) (s : string) :
  length (JS.split sep s) = S (count_char sep s).
Proof.
  induction s as [|c r IH]; simpl; [reflexivity|].
  destruct (Ascii.eqb c sep); simpl; [now rewrite IH|].
  pose proof (split_not_nil sep r) as nn.
  destruct (JS.split sep r) as [|h t]; [congruence|]. exact IH.
Qed.

Lemma trim_blank (s : string) : JS.all_ws s = true -> JS.trim s = "".
Proof.
  unfold JS.trim. induction s as [|c r IH]; simpl; [reflexivity|].
  intros h. apply andb_prop in h. destruct h as [w ws].
  rewrite w. now apply IH.
Qed.

(** X9. A skills string with n commas is stored as n + 1 skills, and a
    fragment that is empty or all white space is stored as the one-space
    string: nothing drops blank fragments. *)
Theorem split_skills_shape (s : string) :
  length (split_skills s) = S (count_char "," s)
  /\ (forall i frag,
         nth_error (JS.split "," s) i = Some frag ->
         JS.all_ws frag = true ->
         nth_error (split_skills s) i = Some " ").
Proof.
  unfold split_skills. split.
  - rewrite length_map. apply split_length.
  - intros i frag hn blank.
    rewrite nth_error_map, hn. simpl. now rewrite trim_blank.
Qed.

Lemma split_skills_shape_witness :
  length (split_skills "a, ,,b") = 4
  /\ nth_error (split_skills "a, ,,b") 1 = Some " "
  /\ nth_error (split_skills "a, ,,b") 2 = Some " ".
Proof.
  split; [exact (proj1 (split_skills_shape "a, ,,b"))|].
  split.
  - exact (proj2 (split_skills_shape "a, ,,b") 1 " " eq_refl eq_refl).
  - exact (proj2 (split_skills_shape "a, ,,b") 2 "" eq_refl eq_refl).
Defined.

(** ** The reads of a profile *)

(** X10. GET api/profile/me never writes, answers "no profile" exactly
    when no stored profile belongs to the caller, and otherwise answers with
    the first stored profile of the caller, its owner populated, never with
    someone else's. *)
Theorem get_me_spec (users : list User) (uid : Id) (db : DB) :
  snd (get_me users uid db) = db
  /\ ((forall q, In q db -> user q <> uid) <->
      get_me users uid db = (Ok me_not_found, db))
  /\ (forall pp, fst (get_me users uid db) = Ok (json 200 (JPopulated pp)) ->
                 In (doc pp) db /\ user (doc pp) = uid
                 /\ pp = populate users (doc pp))
  /\ (forall pre p post,
         db = pre ++ p :: post ->
         (forall q, In q pre -> user q <> uid) -> user p = uid ->
         get_me users uid db
         = (Ok (json 200 (JPopulated (populate users p))), db)).
Proof.
  unfold get_me, Profile_findOne_populate. run_handler.
  destruct (find (fun q => String.eqb (user q) uid) db) as [p0|] eqn:F; simpl.
  - split; [reflexivity|]. split; [|split].
    + split; [|discriminate]. intros no. exfalso.
      apply find_some in F. destruct F as [hin hu].
      apply (no p0 hin). now apply String.eqb_eq.
    + intros pp [= <-]. apply find_some in F. destruct F as [hin hu].
      simpl. repeat split; [exact hin | now apply String.eqb_eq].
    + intros pre p post -> no yes.
      rewrite find_here in F.
      * now injection F as <-.
      * intros q hq. apply String.eqb_neq. now apply no.
      * now apply String.eqb_eq.
  - split; [reflexivity|]. split; [|split].
    + split; [reflexivity|]. intros _ q hq.
      apply String.eqb_neq. exact (find_none _ _ F q hq).
    + discriminate.
    + intros pre p post -> no yes. exfalso.
      pose proof (find_none _ _ F p) as h. simpl in h.
      rewrite (proj2 (String.eqb_eq _ _) yes) in h.
      discriminate h. apply in_or_app. right. now left.
Qed.

Lemma get_me_spec_witness :
  get_me Sample.people Sample.alice [Sample.bob_profile]
  = (Ok me_not_found, [Sample.bob_profile])
  /\ get_me Sample.people Sample.bob [Sample.bob_profile]
     = (Ok (json 200 (JPopulated (populate Sample.people Sample.bob_profile))),
        [Sample.bob_profile]).
Proof.
  split.
  - refine (proj1 (proj1 (proj2 (get_me_spec Sample.people Sample.alice
                                   [Sample.bob_profile]))) _).
    intros q [<-|[]]. discriminate.
  - exact (proj2 (proj2 (proj2 (get_me_spec Sample.people Sample.bob
                                  [Sample.bob_profile])))
             [] Sample.bob_profile [] eq_refl
             (fun q (h : In q []) => match h with end) eq_refl).
Defined.

(** X11. GET api/profile/user/:user_id turns down a malformed identifier
    before any lookup, with an answer of its own ("Invalid user ID") that is
    neither the not-found answer nor a profile, even when a stored profile
    carries that owner string; for a well-formed identifier it answers
    "Profile not found" when no profile has that owner and the owner's first
    profile, its owner populated, otherwise; it never writes. *)
Theorem get_user_spec (isValid : string -> bool) (users : list User)
  (user_id : Id) (db : DB) :
  snd (get_user isValid users user_id db) = db
  /\ (isValid user_id = false ->
      get_user isValid users user_id db
      = (Ok (json 400 (JMsg "Invalid user ID")), db)
      /\ json 400 (JMsg "Invalid user ID") <> user_not_found)
  /\ (isValid user_id = true ->
      (forall q, In q db -> user q <> user_id) ->
      get_user isValid users user_id db = (Ok user_not_found, db))
  /\ (isValid user_id = true ->
      forall pre p post,
        db = pre ++ p :: post ->
        (forall q, In q pre -> user q <> user_id) -> user p = user_id ->
        get_user isValid users user_id db
        = (Ok (json 200 (JPopulated (populate users p))), db)).
Proof.
  unfold get_user, Profile_findOne_populate. split; [|split; [|split]].
  - destruct (isValid user_id); simpl; [|reflexivity]. run_handler.
    now destruct (find _ db).
  - intros ->. simpl. split; [reflexivity | discriminate].
  - intros -> no. simpl. run_handler.
    rewrite (proj2 (find_none_iff _ db)); [reflexivity|].
    intros q hq. apply String.eqb_neq. now apply no.
  - intros -> pre p post -> no yes. simpl. run_handler.
    rewrite find_here; [reflexivity | |].
    + intros q hq. apply String.eqb_neq. now apply no.
    + now apply String.eqb_eq.
Qed.

Lemma get_user_spec_witness :
  get_user Sample.ObjectId_isValid Sample.people "not-an-id"
    [mkProfile Sample.id1 "not-an-id" None None None None [] None None
       Sample.no_social [] []]
  = (Ok (json 400 (JMsg "Invalid user ID")),
     [mkProfile Sample.id1 "not-an-id" None None None None [] None None
        Sample.no_social [] []])
  /\ get_user Sample.ObjectId_isValid Sample.people Sample.alice
       [Sample.bob_profile]
     = (Ok user_not_found, [Sample.bob_profile]).
Proof.
  split.
  - exact (proj1 (proj1 (proj2 (get_user_spec Sample.ObjectId_isValid
                                  Sample.people "not-an-id"
                                  [mkProfile Sample.id1 "not-an-id" None None None
                                     None [] None None Sample.no_social [] []]))
                    eq_refl)).
  - refine (proj1 (proj2 (proj2 (get_user_spec Sample.ObjectId_isValid
                                   Sample.people Sample.alice
                                   [Sample.bob_profile]))) eq_refl _).
    intros q [<-|[]]. discriminate.
Defined.

(** ** Validation of the sub-document bodies *)

Lemma lt_irrefl (s : string) : JS.lt s s = false.
Proof.
  induction s as [|c r IH]; simpl; [reflexivity|].
  now rewrite Nat.ltb_irrefl.
Qed.

Lemma lt_asym (a b : string) : JS.lt a b = true -> JS.lt b a = false.
Proof.
  revert b. induction a as [|x a' IH]; intros [|y b']; simpl; try congruence.
  destruct (Nat.ltb_spec (nat_of_ascii x) (nat_of_ascii y)) as [l|g].
  - intros _. destruct (Nat.ltb_spec (nat_of_ascii y) (nat_of_ascii x)); [lia|].
    destruct (Nat.ltb_spec (nat_of_ascii x) (nat_of_ascii y)); [reflexivity | lia].
  - destruct (Nat.ltb_spec (nat_of_ascii y) (nat_of_ascii x)) as [l'|g'];
      [discriminate|].
    apply IH.
Qed.

Lemma app_nil_iff {A : Type} (l l' : list A) :
  l ++ l' = [] <-> l = [] /\ l' = [].
Proof.
  split; [apply app_eq_nil | now intros [-> ->]].
Qed.

Lemma check_notEmpty_nil (v : field) (msg : string) :
  check_notEmpty v msg = [] <-> isEmpty v = false.
Proof. unfold check_notEmpty. destruct (isEmpty v); split; congruence. Qed.

Lemma check_custom_nil (ok : bool) (msg : string) :
  check_custom ok msg = [] <-> ok = true.
Proof. unfold check_custom. destruct ok; split; congruence. Qed.

Lemma from_before_to_true (value to : field) :
  from_before_to value to = true
  <-> JS.truthy to = false \/ js_lt value to = true.
Proof.
  unfold from_before_to. destruct (JS.truthy to); split; auto.
  - intros [h|h]; congruence.
Qed.

Lemma put_education_invalid (el : Elsewhere) (db : DB) (uid fresh : Id) (body : EducationBody) :
  validate_education el body <> [] ->
  put_education el uid body fresh db
  = (Ok (json 400 (JErrors (validate_education el body))), db).
Proof.
  intros ne. unfold put_education.
  destruct (validate_education el body); [congruence | reflexivity].
Qed.

Lemma located_nowhere (name : string) :
  located nowhere name = [None; None; None; None].
Proof. reflexivity. Qed.

Lemma on_each_one {A : Type} (v : A) (check : A -> list string) :
  on_each [v] check = check v.
Proof. unfold on_each. simpl. apply app_nil_r. Qed.

Lemma Forall_both {A : Type} (P Q : A -> Prop) (l : list A) :
  Forall P l /\ Forall Q l <-> Forall (fun x => P x /\ Q x) l.
Proof.
  split.
  - intros [hp hq]. induction hp as [|x r px _ IH]; [constructor|].
    inversion hq; subst. constructor; auto.
  - intros h. induction h as [|x r [px qx] _ [IHp IHq]]; split; constructor; auto.
Qed.



(** X13. The date check of the two add handlers is strict and one-way: a
    body whose [from] and [to] are the same non-empty string is answered
    400 with the date message, and so is a body whose [from] and [to] are
    those of an accepted body (a non-empty [from] with [from < to]) the
    other way round. *)
Theorem add_rejects_equal_and_swapped_dates (el : Elsewhere) (s from to : string) :
  s <> "" ->
  from <> "" ->
  JS.lt from to = true ->
  (forall b uid fresh db,
      xb_from b = Some s -> xb_to b = Some s ->
      In from_msg (validate_experience el b)
      /\ put_experience el uid b fresh db
         = (Ok (json 400 (JErrors (validate_experience el b))), db))
  /\ (forall b uid fresh db,
      xb_from b = Some to -> xb_to b = Some from ->
      In from_msg (validate_experience el b)
      /\ put_experience el uid b fresh db
         = (Ok (json 400 (JErrors (validate_experience el b))), db))
  /\ (forall b uid fresh db,
      eb_from b = Some s -> eb_to b = Some s ->
      In from_msg (validate_education el b)
      /\ put_education el uid b fresh db
         = (Ok (json 400 (JErrors (validate_education el b))), db))
  /\ (forall b uid fresh db,
      eb_from b = Some to -> eb_to b = Some from ->
      In from_msg (validate_education el b)
      /\ put_education el uid b fresh db
         = (Ok (json 400 (JErrors (validate_education el b))), db)).
Proof.
  intros ne nf lt.
  assert (tr : JS.truthy (Some s) = true) by (destruct s; [congruence | reflexivity]).
  assert (tf : JS.truthy (Some from) = true)
    by (destruct from; [congruence | reflexivity]).
  assert (eq_bad : from_before_to (Some s) (Some s) = false).
  { unfold from_before_to. rewrite tr. simpl. apply lt_irrefl. }
  assert (sw_bad : from_before_to (Some to) (Some from) = false).
  { unfold from_before_to. rewrite tf. simpl. now apply lt_asym. }
  assert (exp_bad : forall b v w,
             xb_from b = Some v -> xb_to b = Some w ->
             from_before_to (Some v) (Some w) = false ->
             In from_msg (validate_experience el b)).
  { intros b v w hf ht bad.
    apply experience_dates_reported with v; [exact hf | now rewrite ht]. }
  assert (edu_bad : forall b v w,
             eb_from b = Some v -> eb_to b = Some w ->
             from_before_to (Some v) (Some w) = false ->
             In from_msg (validate_education el b)).
  { intros b v w hf ht bad.
    apply education_dates_reported with v; [exact hf | now rewrite ht]. }
  assert (edu_400 : forall b uid fresh db,
             In from_msg (validate_education el b) ->
             put_education el uid b fresh db
             = (Ok (json 400 (JErrors (validate_education el b))), db)).
  { intros b uid fresh db hin. apply put_education_invalid.
    intros e. now rewrite e in hin. }
  split; [|split; [|split]]; intros b uid fresh db hf ht.
  - pose proof (exp_bad b s s hf ht eq_bad) as hin.
    split; [exact hin | now apply put_experience_invalid with from_msg].
  - pose proof (exp_bad b to from hf ht sw_bad) as hin.
    split; [exact hin | now apply put_experience_invalid with from_msg].
  - pose proof (edu_bad b s s hf ht eq_bad) as hin. auto.
  - pose proof (edu_bad b to from hf ht sw_bad) as hin. auto.
Qed.

Lemma add_rejects_equal_and_swapped_dates_witness :
  put_experience nowhere Sample.bob
    (mkExperienceBody (Some "Engineer") (Some "Acme") None
       (Some "2021-05-01") (Some "2021-05-01") None None)
    Sample.id3 [Sample.bob_profile]
  = (Ok (json 400 (JErrors [from_msg])), [Sample.bob_profile])
  /\ put_education nowhere Sample.bob
       (mkEducationBody (Some "MIT") (Some "BSc") (Some "CS")
          (Some "2019-06-01") (Some "2015-09-01") None None)
       Sample.id3 [Sample.bob_profile]
     = (Ok (json 400 (JErrors [from_msg])), [Sample.bob_profile]).
Proof.
  destruct (add_rejects_equal_and_swapped_dates nowhere "2021-05-01" "2015-09-01"
              "2019-06-01") as (eqx & _ & _ & swe);
    [discriminate | discriminate | reflexivity |].
  split.
  - exact (proj2 (eqx (mkExperienceBody (Some "Engineer") (Some "Acme") None
                         (Some "2021-05-01") (Some "2021-05-01") None None)
                    Sample.bob Sample.id3 [Sample.bob_profile] eq_refl eq_refl)).
  - exact (proj2 (swe (mkEducationBody (Some "MIT") (Some "BSc") (Some "CS")
                         (Some "2019-06-01") (Some "2015-09-01") None None)
                    Sample.bob Sample.id3 [Sample.bob_profile] eq_refl eq_refl)).
Defined.

(** ** Adding and deleting sub-documents: what else happens *)

Lemma save_at (uid : Id) (pre post : DB) (p p' : Profile) :
  NoDup (map _id (pre ++ p :: post)) ->
  (forall q, In q pre -> user q <> uid) -> user p = uid ->
  _id p' = _id p ->
  find (fun q => String.eqb (user q) uid) (pre ++ p :: post) = Some p
  /\ replace_doc p' (pre ++ p :: post) = pre ++ p' :: post.
Proof.
  intros nd no yes e. split.
  - apply find_here.
    + intros q hq. apply String.eqb_neq. now apply no.
    + now apply String.eqb_eq.
  - now apply replace_doc_at.
Qed.

(** X14. Adding an experience or an education entry changes one list of
    one document: in a collection with unique identifiers, the caller's
    profile is rewritten where it stands with the new entry in front of the
    list concerned, its other list and its other fields are as before, and
    no other document changes. *)
Theorem add_changes_one_list_only (el : Elsewhere) (uid fresh : Id) (pre post : DB) (p : Profile) :
  NoDup (map _id (pre ++ p :: post)) ->
  (forall q, In q pre -> user q <> uid) ->
  user p = uid ->
  (forall body, validate_experience el body = [] ->
     exists p',
       put_experience el uid body fresh (pre ++ p :: post)
       = (Ok (json 200 (JProfile (Some p'))), pre ++ p' :: post)
       /\ experience p' = newExp fresh body :: experience p
       /\ set_experience p' (experience p) = p)
  /\ (forall body, validate_education el body = [] ->
     exists p',
       put_education el uid body fresh (pre ++ p :: post)
       = (Ok (json 200 (JProfile (Some p'))), pre ++ p' :: post)
       /\ education p' = newEdu fresh body :: education p
       /\ set_education p' (education p) = p).
Proof.
  intros nd no yes. split; intros body v.
  - exists (set_experience p (newExp fresh body :: experience p)).
    destruct (save_at uid pre post p
                (set_experience p (newExp fresh body :: experience p))
                nd no yes eq_refl) as [hf hr].
    rewrite (put_experience_found el _ uid fresh body p v hf), hr.
    repeat split. now destruct p.
  - exists (set_education p (newEdu fresh body :: education p)).
    destruct (save_at uid pre post p
                (set_education p (newEdu fresh body :: education p))
                nd no yes eq_refl) as [hf hr].
    rewrite (put_education_found el _ uid fresh body p v hf), hr.
    repeat split. now destruct p.
Qed.

Lemma add_changes_one_list_only_witness :
  exists p',
    put_education nowhere Sample.bob Sample.school Sample.id3 [Sample.bob_profile]
    = (Ok (json 200 (JProfile (Some p'))), [p'])
    /\ education p' = [newEdu Sample.id3 Sample.school]
    /\ set_education p' [] = Sample.bob_profile.
Proof.
  assert (nd : NoDup (map _id ([] ++ Sample.bob_profile :: []))).
  { constructor; [intros [] | constructor]. }
  exact (proj2 (add_changes_one_list_only nowhere Sample.bob Sample.id3 [] []
                  Sample.bob_profile nd
                  (fun q (h : In q []) => match h with end) eq_refl)
           Sample.school eq_refl).
Defined.

(** X15. Deleting a sub-document is scoped to the caller: in a collection
    with unique identifiers only the caller's profile is rewritten, with the
    matching entries taken out of the list concerned and nothing else
    changed; the documents of other owners stay as they are, also when they
    hold an entry with the same identifier. *)
Theorem delete_changes_caller_only (uid eid : Id) (pre post : DB) (p : Profile) :
  NoDup (map _id (pre ++ p :: post)) ->
  (forall q, In q pre -> user q <> uid) ->
  user p = uid ->
  (exists p',
      delete_experience uid eid (pre ++ p :: post)
      = (Ok (json 200 (JProfile (Some p'))), pre ++ p' :: post)
      /\ experience p' = removeByID eid (experience p)
      /\ has_id eid (experience p') = false
      /\ set_experience p' (experience p) = p)
  /\ (exists p',
      delete_education uid eid (pre ++ p :: post)
      = (Ok (json 200 (JProfile (Some p'))), pre ++ p' :: post)
      /\ education p' = removeByID eid (education p)
      /\ has_id eid (education p') = false
      /\ set_education p' (education p) = p).
Proof.
  intros nd no yes. split.
  - exists (set_experience p (removeByID eid (experience p))).
    destruct (save_at uid pre post p
                (set_experience p (removeByID eid (experience p)))
                nd no yes eq_refl) as [hf hr].
    rewrite (delete_experience_found _ uid eid p hf), hr.
    repeat split; [|now destruct p].
    apply has_id_false. intros e he. now apply removeByID_In in he.
  - exists (set_education p (removeByID eid (education p))).
    destruct (save_at uid pre post p
                (set_education p (removeByID eid (education p)))
                nd no yes eq_refl) as [hf hr].
    rewrite (delete_education_found _ uid eid p hf), hr.
    repeat split; [|now destruct p].
    apply has_id_false. intros e he. now apply removeByID_In in he.
Qed.

Lemma delete_changes_caller_only_witness :
  exists p',
    delete_experience Sample.alice Sample.id2
      [Sample.bob_profile;
       mkProfile Sample.id3 Sample.alice None None None None [] None None
         Sample.no_social [newExp Sample.id2 Sample.job2] []]
    = (Ok (json 200 (JProfile (Some p'))), [Sample.bob_profile; p'])
    /\ experience p' = [].
Proof.
  assert (nd : NoDup (map _id
                        ([Sample.bob_profile]
                           ++ mkProfile Sample.id3 Sample.alice None None None
                                None [] None None Sample.no_social
                                [newExp Sample.id2 Sample.job2] [] :: []))).
  { constructor; [intros [h|[]]; discriminate h|].
    constructor; [intros [] | constructor]. }
  assert (no : forall q, In q [Sample.bob_profile] -> user q <> Sample.alice).
  { intros q [<-|[]]. discriminate. }
  destruct (proj1 (delete_changes_caller_only Sample.alice Sample.id2
                     [Sample.bob_profile] [] _ nd no eq_refl))
    as (p' & run & hexp & _).
  exists p'. split; [exact run | exact hexp].
Defined.

(** X16. Like the add of an experience, the add of an education and the
    two deletes dereference the [null] of a missing profile: for a caller
    without a profile they answer 500 (the add with the text "Server Error",
    the deletes with the message "Server error") and write nothing. *)
Theorem subdocument_handlers_without_profile (el : Elsewhere) (uid fresh eid : Id)
  (body : EducationBody) (db : DB) :
  (forall q, In q db -> user q <> uid) ->
  (validate_education el body = [] ->
   put_education el uid body fresh db = (Ok (send 500 "Server Error"), db))
  /\ delete_experience uid eid db = (Ok (json 500 (JMsg "Server error")), db)
  /\ delete_education uid eid db = (Ok (json 500 (JMsg "Server error")), db).
Proof.
  intros no.
  assert (f : find (fun q => String.eqb (user q) uid) db = None).
  { apply find_none_iff. intros q hq. apply String.eqb_neq. now apply no. }
  split; [|split].
  - intros v. unfold put_education. rewrite v. run_handler. now rewrite f.
  - unfold delete_experience. run_handler. now rewrite f.
  - unfold delete_education. run_handler. now rewrite f.
Qed.

Lemma subdocument_handlers_without_profile_witness :
  put_education nowhere Sample.alice Sample.school Sample.id3 [Sample.bob_profile]
  = (Ok (send 500 "Server Error"), [Sample.bob_profile])
  /\ delete_experience Sample.alice Sample.id2 [Sample.bob_profile]
     = (Ok (json 500 (JMsg "Server error")), [Sample.bob_profile]).
Proof.
  assert (no : forall q, In q [Sample.bob_profile] -> user q <> Sample.alice).
  { intros q [<-|[]]. discriminate. }
  destruct (subdocument_handlers_without_profile nowhere Sample.alice Sample.id3
              Sample.id2 Sample.school [Sample.bob_profile] no)
    as (add & del & _).
  split; [exact (add eq_refl) | exact del].
Defined.

Lemma education_add_then_delete (el : Elsewhere) (db : DB) (uid fresh : Id)
  (body : EducationBody) (p : Profile) :
  NoDup (map _id db) ->
  find (fun q => String.eqb (user q) uid) db = Some p ->
  validate_education el body = [] ->
  (forall e, In e (education p) -> edu_id e <> fresh) ->
  exists p1 db1,
    put_education el uid body fresh db = (Ok (json 200 (JProfile (Some p1))), db1)
    /\ education p1 = newEdu fresh body :: education p
    /\ delete_education uid fresh db1 = (Ok (json 200 (JProfile (Some p))), db).
Proof.
  intros nd hf v absent.
  assert (hu : user p = uid).
  { apply find_some in hf. destruct hf as [_ hf]. now apply String.eqb_eq. }
  pose (p1 := set_education p (newEdu fresh body :: education p)).
  exists p1, (replace_doc p1 db).
  split; [now apply put_education_found|]. split; [reflexivity|].
  rewrite (delete_education_found (replace_doc p1 db) uid fresh p1)
    by now apply find_replace_doc with (p := p).
  assert (back : set_education p1 (removeByID fresh (education p1)) = p).
  { unfold p1, removeByID. simpl. rewrite String.eqb_refl. simpl.
    fold (removeByID fresh (education p)).
    rewrite (@removeByID_absent _ Education_SubDoc fresh (education p) absent).
    now destruct p. }
  rewrite back, replace_doc_twice by reflexivity.
  rewrite replace_doc_same; [reflexivity | assumption |].
  now apply find_some in hf.
Qed.

(** X17. Adding an entry and then deleting it by the identifier it was
    given undoes the add: for experience and for education alike, in a
    collection with unique identifiers and with an identifier that is new to
    the list, the delete answers with the profile as it was before the add
    and the collection is as it was. *)
Theorem add_then_delete_restores (el : Elsewhere) (db : DB) (uid fresh : Id) (p : Profile) :
  NoDup (map _id db) ->
  find (fun q => String.eqb (user q) uid) db = Some p ->
  (forall body,
      validate_experience el body = [] ->
      (forall e, In e (experience p) -> exp_id e <> fresh) ->
      exists p1 db1,
        put_experience el uid body fresh db
        = (Ok (json 200 (JProfile (Some p1))), db1)
        /\ delete_experience uid fresh db1
           = (Ok (json 200 (JProfile (Some p))), db))
  /\ (forall body,
      validate_education el body = [] ->
      (forall e, In e (education p) -> edu_id e <> fresh) ->
      exists p1 db1,
        put_education el uid body fresh db
        = (Ok (json 200 (JProfile (Some p1))), db1)
        /\ delete_education uid fresh db1
           = (Ok (json 200 (JProfile (Some p))), db)).
Proof.
  intros nd hf. split; intros body v absent.
  - destruct (experience_add_then_delete el db uid fresh body p nd hf v absent)
      as (p1 & db1 & add & _ & del).
    now exists p1, db1.
  - destruct (education_add_then_delete el db uid fresh body p nd hf v absent)
      as (p1 & db1 & add & _ & del).
    now exists p1, db1.
Qed.

Lemma add_then_delete_restores_witness :
  exists p1 db1,
    put_experience nowhere Sample.bob Sample.job2 Sample.id3 [Sample.bob_profile]
    = (Ok (json 200 (JProfile (Some p1))), db1)
    /\ delete_experience Sample.bob Sample.id3 db1
       = (Ok (json 200 (JProfile (Some Sample.bob_profile))), [Sample.bob_profile]).
Proof.
  assert (nd : NoDup (map _id [Sample.bob_profile])).
  { constructor; [intros [] | constructor]. }
  refine (proj1 (add_then_delete_restores nowhere [Sample.bob_profile] Sample.bob
                   Sample.id3 Sample.bob_profile nd eq_refl)
            Sample.job2 eq_refl _).
  intros e [<-|[]]. discriminate.
Defined.

(** X18. Deleting a sub-document twice is deleting it once: after a delete
    on a stored profile no entry of the list carries the identifier, and
    the same delete again answers with the same profile and leaves the
    collection as the first delete left it. *)
Theorem delete_is_idempotent (db : DB) (uid eid : Id) (p : Profile) :
  NoDup (map _id db) ->
  find (fun q => String.eqb (user q) uid) db = Some p ->
  (exists p1 db1,
      delete_experience uid eid db = (Ok (json 200 (JProfile (Some p1))), db1)
      /\ has_id eid (experience p1) = false
      /\ delete_experience uid eid db1 = (Ok (json 200 (JProfile (Some p1))), db1))
  /\ (exists p1 db1,
      delete_education uid eid db = (Ok (json 200 (JProfile (Some p1))), db1)
      /\ has_id eid (education p1) = false
      /\ delete_education uid eid db1 = (Ok (json 200 (JProfile (Some p1))), db1)).
Proof.
  intros nd hf.
  assert (hu : user p = uid).
  { apply find_some in hf. destruct hf as [_ hf]. now apply String.eqb_eq. }
  split.
  - pose (p1 := set_experience p (removeByID eid (experience p))).
    assert (gone : forall e, In e (experience p1) -> exp_id e <> eid).
    { intros e he. now apply (@removeByID_In _ Experience_SubDoc) in he. }
    exists p1, (replace_doc p1 db).
    split; [now apply delete_experience_found|].
    split; [now apply (@has_id_false _ Experience_SubDoc)|].
    apply delete_experience_unknown_id; [now rewrite replace_doc_ids | | exact gone].
    now apply find_replace_doc with (p := p).
  - pose (p1 := set_education p (removeByID eid (education p))).
    assert (gone : forall e, In e (education p1) -> edu_id e <> eid).
    { intros e he. now apply (@removeByID_In _ Education_SubDoc) in he. }
    exists p1, (replace_doc p1 db).
    split; [now apply delete_education_found|].
    split; [now apply (@has_id_false _ Education_SubDoc)|].
    apply delete_education_unknown_id; [now rewrite replace_doc_ids | | exact gone].
    now apply find_replace_doc with (p := p).
Qed.

Lemma delete_is_idempotent_witness :
  exists p1 db1,
    delete_experience Sample.bob Sample.id2 [Sample.bob_profile]
    = (Ok (json 200 (JProfile (Some p1))), db1)
    /\ has_id Sample.id2 (experience p1) = false
    /\ delete_experience Sample.bob Sample.id2 db1
       = (Ok (json 200 (JProfile (Some p1))), db1).
Proof.
  assert (nd : NoDup (map _id [Sample.bob_profile])).
  { constructor; [intros [] | constructor]. }
  exact (proj1 (delete_is_idempotent [Sample.bob_profile] Sample.bob Sample.id2
                  Sample.bob_profile nd eq_refl)).
Defined.

(** ** PUT api/profile/experience/:exp_id, continued *)

Lemma update_entry_ids (id : Id) (g : Experience -> Experience)
  (l : list Experience) :
  (forall e, exp_id (g e) = exp_id e) ->
  map exp_id (update_entry id g l) = map exp_id l.
Proof.
  intros keep. induction l as [|e r IH]; simpl; [reflexivity|].
  destruct (String.eqb (exp_id e) id); simpl; [now rewrite keep|].
  now rewrite IH.
Qed.

Lemma update_entry_again (id : Id) (g : Experience -> Experience)
  (l : list Experience) :
  (forall e, exp_id (g e) = exp_id e) -> (forall e, g (g e) = g e) ->
  update_entry id g (update_entry id g l) = update_entry id g l.
Proof.
  intros keep idem. induction l as [|e r IH]; simpl; [reflexivity|].
  destruct (String.eqb (exp_id e) id) eqn:E; simpl.
  - now rewrite keep, E, idem.
  - now rewrite E, IH.
Qed.

Lemma has_id_by_ids (id : Id) (l l' : list Experience) :
  map exp_id l = map exp_id l' -> has_id id l = has_id id l'.
Proof.
  unfold has_id. revert l'.
  induction l as [|e r IH]; intros [|e' r']; simpl; try discriminate;
    [reflexivity|].
  intros [= h t]. change (doc_id e) with (exp_id e).
  change (doc_id e') with (exp_id e'). rewrite h. f_equal. now apply IH.
Qed.

Lemma put_experience_id_ok_inv (isValid : string -> bool) (uid eid : Id)
  (body : ExperienceBody) (db db' : DB) (p' : Profile) :
  put_experience_id isValid uid eid body db
  = (Ok (json 200 (JProfile (Some p'))), db') ->
  isValid eid = true
  /\ update_first (fun p => has_id eid (experience p))
       (fun p => set_experience p
                   (update_entry eid (patch_experience body) (experience p)))
       db = Some (p', db').
Proof.
  unfold put_experience_id, Profile_updateExperience.
  destruct (isValid eid); simpl.
  - unfold try_catch, bind, ret.
    destruct (update_first _ _ db) as [[p0 db0]|]; [|discriminate].
    intros [= -> ->]. auto.
  - unfold try_catch, bind, ret, throw. discriminate.
Qed.

(** X19. A successful update of an experience entry keeps the shape of
    everything: the collection has the same documents' identifiers and
    owners in the same order, and the updated profile, which was stored
    before, has the same entry identifiers in the same order (the entry
    addressed among them), the same education and the same other fields. *)
Theorem put_experience_id_keeps_shape (isValid : string -> bool) (uid eid : Id)
  (body : ExperienceBody) (db db' : DB) (p' : Profile) :
  put_experience_id isValid uid eid body db
  = (Ok (json 200 (JProfile (Some p'))), db') ->
  map _id db' = map _id db
  /\ map user db' = map user db
  /\ In p' db'
  /\ has_id eid (experience p') = true
  /\ exists p,
      In p db
      /\ map exp_id (experience p') = map exp_id (experience p)
      /\ set_experience p' (experience p) = p.
Proof.
  intros run.
  destruct (put_experience_id_ok_inv isValid uid eid body db db' p' run)
    as [_ U].
  destruct (update_first_inv _ _ _ _ _ U)
    as (pre & q & post & -> & _ & yes & -> & ->).
  assert (ids : map exp_id (update_entry eid (patch_experience body) (experience q))
                = map exp_id (experience q))
    by now apply update_entry_ids.
  rewrite !map_app. simpl. repeat split.
  - apply in_or_app. right. now left.
  - now rewrite (has_id_by_ids eid _ (experience q)).
  - exists q. split; [apply in_or_app; right; now left|].
    split; [exact ids | now destruct q].
Qed.

Lemma put_experience_id_keeps_shape_witness :
  map _id (snd (put_experience_id Sample.ObjectId_isValid Sample.alice
                  Sample.id2 Sample.job2 [Sample.bob_profile]))
  = [Sample.id1]
  /\ exists p',
      fst (put_experience_id Sample.ObjectId_isValid Sample.alice Sample.id2
             Sample.job2 [Sample.bob_profile])
      = Ok (json 200 (JProfile (Some p')))
      /\ has_id Sample.id2 (experience p') = true.
Proof.
  destruct (put_experience_id_keeps_shape Sample.ObjectId_isValid Sample.alice
              Sample.id2 Sample.job2 [Sample.bob_profile] _ _ eq_refl)
    as (ids & _ & _ & has & _).
  split; [exact ids|]. eexists. split; [reflexivity | exact has].
Defined.

(** X20. The update of an experience entry is idempotent: the same request
    again answers with the same profile and leaves the collection as the
    first request left it. *)
Theorem put_experience_id_idempotent (isValid : string -> bool)
  (uid uid' eid : Id) (body : ExperienceBody) (db db' : DB) (p' : Profile) :
  put_experience_id isValid uid eid body db
  = (Ok (json 200 (JProfile (Some p'))), db') ->
  put_experience_id isValid uid' eid body db'
  = (Ok (json 200 (JProfile (Some p'))), db').
Proof.
  intros run.
  destruct (put_experience_id_ok_inv isValid uid eid body db db' p' run)
    as [ok U].
  unfold put_experience_id, Profile_updateExperience. rewrite ok. simpl.
  unfold try_catch, bind, ret.
  rewrite (update_first_again _ _ db db' p'); [reflexivity | | | exact U].
  - intros q yes. simpl.
    rewrite (has_id_by_ids eid _ (experience q)); [exact yes|].
    now apply update_entry_ids.
  - intros q _. simpl. now rewrite update_entry_again.
Qed.

Lemma put_experience_id_idempotent_witness :
  put_experience_id Sample.ObjectId_isValid Sample.bob Sample.id2 Sample.job2
    (snd (put_experience_id Sample.ObjectId_isValid Sample.alice Sample.id2
            Sample.job2 [Sample.bob_profile]))
  = put_experience_id Sample.ObjectId_isValid Sample.alice Sample.id2
      Sample.job2 [Sample.bob_profile].
Proof.
  exact (put_experience_id_idempotent Sample.ObjectId_isValid Sample.alice
           Sample.bob Sample.id2 Sample.job2 [Sample.bob_profile] _ _ eq_refl).
Defined.

(** An identifier in the address that cannot be cast to an ObjectId
    makes the query throw; the handler catches it and answers 500 with the
    message "Server error", and nothing is written, whatever the collection
    holds. *)
Theorem put_experience_id_malformed (isValid : string -> bool) (uid eid : Id)
  (body : ExperienceBody) (db : DB) :
  isValid eid = false ->
  put_experience_id isValid uid eid body db
  = (Ok (json 500 (JMsg "Server error")), db).
Proof.
  intros bad. unfold put_experience_id, Profile_updateExperience.
  now rewrite bad.
Qed.

Lemma put_experience_id_malformed_witness :
  put_experience_id Sample.ObjectId_isValid Sample.bob "42" Sample.job2
    [Sample.bob_profile]
  = (Ok (json 500 (JMsg "Server error")), [Sample.bob_profile]).
Proof.
  exact (put_experience_id_malformed Sample.ObjectId_isValid Sample.bob "42"
           Sample.job2 [Sample.bob_profile] eq_refl).
Defined.

(** ** DELETE api/profile *)

Section RemoveFirst.

Context {A : Type}.
Variable sel : A -> bool.

Lemma remove_first_here (pre post : list A) (x : A) :
  (forall y, In y pre -> sel y = false) -> sel x = true ->
  remove_first sel (pre ++ x :: post) = pre ++ post.
Proof.
  induction pre as [|y r IH]; simpl; intros no yes.
  - now rewrite yes.
  - rewrite (no y) by now left. f_equal. apply IH; [|exact yes].
    intros z hz. apply no. now right.
Qed.

Lemma remove_first_none (l : list A) :
  (forall y, In y l -> sel y = false) -> remove_first sel l = l.
Proof.
  induction l as [|y r IH]; simpl; intros no; [reflexivity|].
  rewrite (no y) by now left. f_equal. apply IH.
  intros z hz. apply no. now right.
Qed.

(** The documents the query does not select are left, in their order. *)
Lemma remove_first_others (l : list A) :
  filter (fun y => negb (sel y)) (remove_first sel l)
  = filter (fun y => negb (sel y)) l.
Proof.
  induction l as [|y r IH]; simpl; [reflexivity|].
  destruct (sel y) eqn:S; simpl; [reflexivity|].
  now rewrite S, IH.
Qed.

Lemma remove_first_incl (l : list A) (y : A) :
  In y (remove_first sel l) -> In y l.
Proof.
  induction l as [|x r IH]; simpl; [auto|].
  destruct (sel x); [now right|]. intros [<-|h]; [now left | right; auto].
Qed.

End RemoveFirst.

(** When a key is unique, removing the first document with that key leaves
    no document with it. *)
Lemma remove_first_unique {A : Type} (key : A -> Id) (k : Id) (l : list A) :
  NoDup (map key l) ->
  forall y, In y (remove_first (fun x => String.eqb (key x) k) l) -> key y <> k.
Proof.
  induction l as [|x r IH]; simpl; intros nd y hy; [destruct hy|].
  inversion nd as [|z zs notin nd']; subst.
  destruct (String.eqb_spec (key x) k) as [e|ne].
  - intros e'. apply notin. rewrite e, <- e'. now apply in_map.
  - destruct hy as [<-|hy]; [exact ne | now apply IH].
Qed.

(** X21. DELETE api/profile answers "User deleted" and removes every post
    of the caller, the first profile of the caller and the first user
    record of the caller; the posts, profiles and users of everybody else
    are kept, in their order: the posts left are exactly the posts of the
    other authors, as they were listed. *)
Theorem delete_profile_effect (uid : Id) (st : Store) :
  fst (delete_profile uid st) = Ok (json 200 (JMsg "User deleted"))
  /\ posts (snd (delete_profile uid st))
     = filter (fun x => negb (String.eqb (post_user x) uid)) (posts st)
  /\ (forall x, In x (posts (snd (delete_profile uid st)))
                <-> In x (posts st) /\ post_user x <> uid)
  /\ filter (fun p => negb (String.eqb (user p) uid))
       (profiles (snd (delete_profile uid st)))
     = filter (fun p => negb (String.eqb (user p) uid)) (profiles st)
  /\ filter (fun u => negb (String.eqb (user_id u) uid))
       (users (snd (delete_profile uid st)))
     = filter (fun u => negb (String.eqb (user_id u) uid)) (users st)
  /\ (forall pre p post,
         profiles st = pre ++ p :: post ->
         (forall q, In q pre -> user q <> uid) -> user p = uid ->
         profiles (snd (delete_profile uid st)) = pre ++ post)
  /\ (forall pre u post,
         users st = pre ++ u :: post ->
         (forall v, In v pre -> user_id v <> uid) -> user_id u = uid ->
         users (snd (delete_profile uid st)) = pre ++ post).
Proof.
  unfold delete_profile. simpl.
  split; [reflexivity|]. split; [reflexivity|].
  split; [|split; [|split; [|split]]].
  - intros x. rewrite filter_In.
    destruct (String.eqb_spec (post_user x) uid); simpl; intuition congruence.
  - apply (remove_first_others (fun p => String.eqb (user p) uid)).
  - apply (remove_first_others (fun u => String.eqb (user_id u) uid)).
  - intros pre p post -> no yes. apply remove_first_here.
    + intros q hq. apply String.eqb_neq. now apply no.
    + now apply String.eqb_eq.
  - intros pre u post -> no yes. apply remove_first_here.
    + intros q hq. apply String.eqb_neq. now apply no.
    + now apply String.eqb_eq.
Qed.

Lemma delete_profile_effect_witness :
  profiles (snd (delete_profile Sample.bob
                   (mkStore [Sample.bob_profile]
                      [mkPost Sample.id2 Sample.bob; mkPost Sample.id3 Sample.alice]
                      [mkUser Sample.alice "Alice" "a.png";
                       mkUser Sample.bob "Bob" "b.png"])))
  = []
  /\ users (snd (delete_profile Sample.bob
                   (mkStore [Sample.bob_profile]
                      [mkPost Sample.id2 Sample.bob; mkPost Sample.id3 Sample.alice]
                      [mkUser Sample.alice "Alice" "a.png";
                       mkUser Sample.bob "Bob" "b.png"])))
     = [mkUser Sample.alice "Alice" "a.png"].
Proof.
  destruct (delete_profile_effect Sample.bob
              (mkStore [Sample.bob_profile]
                 [mkPost Sample.id2 Sample.bob; mkPost Sample.id3 Sample.alice]
                 [mkUser Sample.alice "Alice" "a.png";
                  mkUser Sample.bob "Bob" "b.png"]))
    as (_ & _ & _ & _ & _ & prof & usr).
  split.
  - exact (prof [] Sample.bob_profile [] eq_refl
             (fun q (h : In q []) => match h with end) eq_refl).
  - refine (usr [mkUser Sample.alice "Alice" "a.png"]
              (mkUser Sample.bob "Bob" "b.png") [] eq_refl _ eq_refl).
    intros v [<-|[]]. discriminate.
Defined.

(** X22. When owners are unique among the profiles, the deleted account
    has no profile left: GET api/profile/me of the same identity then
    answers "no profile".  When user identifiers are unique as well, a
    second DELETE changes nothing more. *)
Theorem delete_profile_then_get_me (uid : Id) (st : Store) :
  NoDup (map user (profiles st)) ->
  get_me (users (snd (delete_profile uid st))) uid
    (profiles (snd (delete_profile uid st)))
  = (Ok me_not_found, profiles (snd (delete_profile uid st)))
  /\ (NoDup (map user_id (users st)) ->
      delete_profile uid (snd (delete_profile uid st)) = delete_profile uid st).
Proof.
  intros nd.
  assert (gone : forall q, In q (profiles (snd (delete_profile uid st))) ->
                           String.eqb (user q) uid = false).
  { intros q hq. apply String.eqb_neq. revert q hq.
    now apply remove_first_unique. }
  split.
  - set (db' := profiles (snd (delete_profile uid st))) in *. clearbody db'.
    unfold get_me, Profile_findOne_populate. run_handler.
    now rewrite (proj2 (find_none_iff _ _) gone).
  - intros ndu. unfold delete_profile in *. simpl in *. f_equal.
    unfold Post_deleteMany, Profile_findOneAndRemove, User_findOneAndRemove.
    simpl. f_equal.
    + now apply remove_first_none.
    + apply forallb_filter_id. apply forallb_filter.
    + apply remove_first_none. intros u hu. apply String.eqb_neq.
      revert u hu. now apply remove_first_unique.
Qed.

Lemma delete_profile_then_get_me_witness :
  get_me [] Sample.bob
    (profiles (snd (delete_profile Sample.bob
                      (mkStore [Sample.bob_profile] [mkPost Sample.id2 Sample.bob]
                         [mkUser Sample.bob "Bob" "b.png"]))))
  = (Ok me_not_found, []).
Proof.
  refine (proj1 (delete_profile_then_get_me Sample.bob
                   (mkStore [Sample.bob_profile] [mkPost Sample.id2 Sample.bob]
                      [mkUser Sample.bob "Bob" "b.png"]) _)).
  constructor; [intros [] | constructor].
Defined.

(** ** Operations in sequence *)

Lemma post_profile_find (normalize : string -> result string)
  (notEmpty_array : list string -> nat) (el : Elsewhere)
  (uid fresh : Id) (body : ProfileBody) (db db1 : DB) (p : Profile) :
  post_profile normalize notEmpty_array el uid body fresh db
  = (Ok (json 200 (JProfile (Some p))), db1) ->
  find (fun q => String.eqb (user q) uid) db1 = Some p.
Proof.
  intros run.
  destruct (post_profile_ok_inv normalize notEmpty_array el uid fresh body db db1 p run)
    as (v & f & b & U).
  pose proof (build_profileFields_user normalize uid body f b) as hu.
  destruct U as [U | (U & -> & ->)].
  - destruct (update_first_inv _ _ _ _ _ U)
      as (pre & q & post & -> & no & yes & -> & ->).
    apply find_here; [exact no|]. simpl. now apply String.eqb_eq.
  - apply find_here.
    + now apply update_first_none_inv with (set_fields f).
    + simpl. now apply String.eqb_eq.
Qed.

(** X23. Once an upsert has succeeded, the owner can add sub-documents:
    a valid add of an experience or of an education right after it answers
    200 with the new entry in front of the list the upsert left (empty for
    a new profile) and with the skills the upsert stored. *)
Theorem post_profile_then_add (normalize : string -> result string)
  (notEmpty_array : list string -> nat) (el : Elsewhere)
  (uid fresh fresh' : Id) (body : ProfileBody) (db db1 : DB) (p : Profile) :
  post_profile normalize notEmpty_array el uid body fresh db
  = (Ok (json 200 (JProfile (Some p))), db1) ->
  (forall b, validate_experience el b = [] ->
     exists p2 db2,
       put_experience el uid b fresh' db1 = (Ok (json 200 (JProfile (Some p2))), db2)
       /\ experience p2 = newExp fresh' b :: experience p
       /\ skills p2 = skills p)
  /\ (forall b, validate_education el b = [] ->
     exists p2 db2,
       put_education el uid b fresh' db1 = (Ok (json 200 (JProfile (Some p2))), db2)
       /\ education p2 = newEdu fresh' b :: education p
       /\ skills p2 = skills p).
Proof.
  intros run.
  pose proof (post_profile_find normalize notEmpty_array el uid fresh body db db1 p run)
    as hf.
  split; intros b v.
  - eexists. eexists. split; [now apply put_experience_found with (p := p)|].
    split; reflexivity.
  - eexists. eexists. split; [now apply put_education_found with (p := p)|].
    split; reflexivity.
Qed.

Lemma post_profile_then_add_witness :
  exists p2 db2,
    put_experience nowhere Sample.alice Sample.job Sample.id2
      (snd (post_profile Sample.normalize Sample.notEmpty_array nowhere Sample.alice
              (Sample.upsert_body (SkillsString "js, css")) Sample.id3 []))
    = (Ok (json 200 (JProfile (Some p2))), db2)
    /\ experience p2 = [newExp Sample.id2 Sample.job]
    /\ skills p2 = [" js"; " css"].
Proof.
  exact (proj1 (post_profile_then_add Sample.normalize Sample.notEmpty_array nowhere
                  Sample.alice Sample.id3 Sample.id2
                  (Sample.upsert_body (SkillsString "js, css")) [] _ _ eq_refl)
           Sample.job eq_refl).
Defined.

(** ** Re-submitting stored skills *)

Lemma trimStart_fixed (s : string) :
  (forall c, JS.first_char s = Some c -> JS.is_ws c = false) ->
  JS.trimStart s = s.
Proof.
  destruct s as [|c r]; simpl; [reflexivity|].
  intros h. now rewrite (h c eq_refl).
Qed.

Lemma trimEnd_fixed (s : string) :
  (forall c, JS.last_char s = Some c -> JS.is_ws c = false) ->
  JS.trimEnd s = s.
Proof.
  induction s as [|c r IH]; [reflexivity|].
  destruct r as [|c' r'].
  - simpl. intros h. now rewrite (h c eq_refl).
  - intros h. change (JS.trimEnd (String c (String c' r')))
      with (match JS.trimEnd (String c' r') with
            | EmptyString => if JS.is_ws c then EmptyString else String c EmptyString
            | x => String c x
            end).
    rewrite IH; [reflexivity|]. intros x hx. apply h. exact hx.
Qed.

Lemma last_char_some (c : ascii) (r : string) :
  exists b, JS.last_char (String c r) = Some b.
Proof.
  revert c. induction r as [|c' r' IH]; intros c; [now exists c|].
  destruct (IH c') as [b hb]. exists b. exact hb.
Qed.

Lemma trim_fixed (t : string) : JS.trimmed t = true -> JS.trim t = t.
Proof.
  unfold JS.trimmed, JS.trim. destruct t as [|c r]; [reflexivity|].
  destruct (last_char_some c r) as [b hb].
  cbn [JS.first_char]. rewrite hb. intros h.
  apply andb_prop in h. destruct h as [ha hl].
  apply negb_true_iff in ha. apply negb_true_iff in hl.
  rewrite trimStart_fixed by (intros x [= <-]; exact ha).
  apply trimEnd_fixed. intros x hx. rewrite hb in hx.
  now injection hx as <-.
Qed.

(** [trim] is idempotent. *)
Lemma trim_trim (s : string) : JS.trim (JS.trim s) = JS.trim s.
Proof.
  destruct (trim_spec s) as (_ & _ & _ & _ & _ & t). now apply trim_fixed.
Qed.

Lemma contains_app (c : ascii) (a b : string) :
  JS.contains c (a ++ b) = JS.contains c a || JS.contains c b.
Proof.
  induction a as [|x r IH]; simpl; [reflexivity|].
  now rewrite IH, orb_assoc.
Qed.

Lemma contains_trim (c : ascii) (s : string) :
  JS.contains c s = false -> JS.contains c (JS.trim s) = false.
Proof.
  destruct (trim_spec s) as (pre & post & eq & _).
  intros h. rewrite eq, !contains_app in h.
  apply orb_false_iff in h. destruct h as [_ h].
  apply orb_false_iff in h. now destruct h.
Qed.

Lemma split_no_sep_one (sep : ascii) (x : string) :
  JS.contains sep x = false -> JS.split sep x = [x].
Proof.
  induction x as [|c r IH]; simpl; [reflexivity|].
  intros h. apply orb_false_iff in h. destruct h as [hc hr].
  rewrite hc. now rewrite IH.
Qed.

Lemma split_app_sep (sep : ascii) (x rest : string) :
  JS.contains sep x = false ->
  JS.split sep (x ++ String sep rest) = x :: JS.split sep rest.
Proof.
  induction x as [|c r IH]; simpl.
  - intros _. now rewrite Ascii.eqb_refl.
  - intros h. apply orb_false_iff in h. destruct h as [hc hr].
    rewrite hc. now rewrite IH.
Qed.

(** Splitting what was joined gives the fragments back, when none of them
    holds the separator. *)
Lemma split_join (sep : ascii) (l : list string) :
  l <> [] -> Forall (fun x => JS.contains sep x = false) l ->
  JS.split sep (JS.join sep l) = l.
Proof.
  induction l as [|x r IH]; [congruence|]. intros _ ok.
  inversion ok as [|y ys hx hr]; subst.
  destruct r as [|x' r'].
  - simpl. now apply split_no_sep_one.
  - rewrite join_cons by discriminate.
    rewrite split_app_sep by assumption. f_equal.
    apply IH; [discriminate | assumption].
Qed.

Lemma skill_again (frag : string) :
  (" " ++ JS.trim (" " ++ JS.trim frag))%string = (" " ++ JS.trim frag)%string.
Proof.
  f_equal. change (JS.trim (" " ++ JS.trim frag)%string)
    with (JS.trimEnd (JS.trimStart (JS.trim frag))).
  apply trim_trim.
Qed.

(** X24. Stored skills are stable: joining the skills an upsert stored for
    a string with commas and submitting that string gives the very same
    skills again, for every input string. *)
Theorem split_skills_roundtrip (s : string) :
  split_skills (JS.join "," (split_skills s)) = split_skills s.
Proof.
  unfold split_skills at 1.
  rewrite split_join.
  - unfold split_skills. rewrite map_map. apply map_ext.
    intros frag. apply skill_again.
  - unfold split_skills. pose proof (split_not_nil "," s) as nn.
    destruct (JS.split "," s); [congruence | discriminate].
  - unfold split_skills. apply Forall_map.
    pose proof (split_no_sep "," s) as ns.
    eapply Forall_impl; [|exact ns]. intros frag nc.
    change (JS.contains "," (String " " (JS.trim frag)) = false).
    simpl. now apply contains_trim.
Qed.

(** ** The documents of the collection under the sub-document handlers *)

Lemma save_keeps_documents (uid : Id) (db : DB) (p p' : Profile) :
  NoDup (map _id db) ->
  find (fun q => String.eqb (user q) uid) db = Some p ->
  _id p' = _id p -> user p' = user p ->
  map _id (replace_doc p' db) = map _id db
  /\ map user (replace_doc p' db) = map user db.
Proof.
  intros nd hf hid hu. split; [apply replace_doc_ids|].
  destruct (find_split _ db p hf) as (pre & post & -> & _ & _).
  rewrite replace_doc_at by assumption.
  rewrite !map_app. simpl. now rewrite hu.
Qed.

(** X25. Adding and deleting sub-documents never creates, removes,
    reorders or re-owns a document: in a collection with unique identifiers
    the four handlers leave the identifiers and the owners of the stored
    documents as they were, however the request ends. *)
Theorem subdocument_handlers_keep_documents (el : Elsewhere) (uid fresh eid : Id)
  (xb : ExperienceBody) (eb : EducationBody) (db : DB) :
  NoDup (map _id db) ->
  same_documents db (snd (put_experience el uid xb fresh db))
  /\ same_documents db (snd (put_education el uid eb fresh db))
  /\ same_documents db (snd (delete_experience uid eid db))
  /\ same_documents db (snd (delete_education uid eid db)).
Proof.
  intros nd. unfold same_documents.
  destruct (find (fun q => String.eqb (user q) uid) db) as [p|] eqn:F.
  - split; [|split; [|split]].
    + destruct (validate_experience el xb) as [|m l] eqn:V.
      * rewrite (put_experience_found el db uid fresh xb p V F). simpl.
        now apply save_keeps_documents with uid p.
      * unfold put_experience. rewrite V. simpl. auto.
    + destruct (validate_education el eb) as [|m l] eqn:V.
      * rewrite (put_education_found el db uid fresh eb p V F). simpl.
        now apply save_keeps_documents with uid p.
      * unfold put_education. rewrite V. simpl. auto.
    + rewrite (delete_experience_found db uid eid p F). simpl.
      now apply save_keeps_documents with uid p.
    + rewrite (delete_education_found db uid eid p F). simpl.
      now apply save_keeps_documents with uid p.
  - split; [|split; [|split]].
    + unfold put_experience. destruct (validate_experience el xb); simpl; auto.
      run_handler. rewrite F. simpl. auto.
    + unfold put_education. destruct (validate_education el eb); simpl; auto.
      run_handler. rewrite F. simpl. auto.
    + unfold delete_experience. run_handler. rewrite F. simpl. auto.
    + unfold delete_education. run_handler. rewrite F. simpl. auto.
Qed.

Lemma subdocument_handlers_keep_documents_witness :
  same_documents [Sample.bob_profile]
    (snd (put_experience nowhere Sample.bob Sample.job2 Sample.id3 [Sample.bob_profile])).
Proof.
  refine (proj1 (subdocument_handlers_keep_documents nowhere Sample.bob Sample.id3
                   Sample.id2 Sample.job2 Sample.school [Sample.bob_profile] _)).
  constructor; [intros [] | constructor].
Defined.

(** ** Fields given outside the body *)

(** X26. The validation and the handler do not read the same places: a
    title given in the query string only passes "Title is required", yet
    the entry is built from the body, so with the other fields valid in the
    body the request is answered 200 and the entry put in front of the
    caller's list has no title. *)
Theorem put_experience_title_from_query (el : Elsewhere) (uid fresh : Id)
  (body : ExperienceBody) (t : string) (db : DB) (p : Profile) :
  xb_title body = None ->
  located el "title" = [None; None; None; Some t] ->
  t <> "" ->
  located el "company" = [None; None; None; None] ->
  located el "from" = [None; None; None; None] ->
  isEmpty (xb_company body) = false ->
  isEmpty (xb_from body) = false ->
  JS.truthy (xb_to body) = false \/ js_lt (xb_from body) (xb_to body) = true ->
  find (fun q => String.eqb (user q) uid) db = Some p ->
  validate_experience el body = []
  /\ validate_experience nowhere body = ["Title is required"]
  /\ exists p' e,
      put_experience el uid body fresh db
      = (Ok (json 200 (JProfile (Some p'))), replace_doc p' db)
      /\ experience p' = e :: experience p
      /\ exp_id e = fresh /\ exp_title e = None
      /\ exp_company e = xb_company body.
Proof.
  intros nt qt ne lc lf hc hfr hd hf.
  assert (v : validate_experience el body = []).
  { unfold validate_experience. rewrite nt, qt, lc, lf, !instances_nowhere.
    change (instances None [None; None; None; Some t]) with [Some t].
    rewrite !on_each_one.
    rewrite !app_nil_iff, !check_notEmpty_nil, check_custom_nil,
      from_before_to_true.
    repeat split; try assumption. destruct t; [congruence | reflexivity]. }
  split; [exact v|]. split.
  - unfold validate_experience.
    rewrite !located_nowhere, !instances_nowhere, !on_each_one, nt.
    replace (check_notEmpty (xb_company body) "Company is required")
      with (@nil string) by (symmetry; now apply check_notEmpty_nil).
    replace (check_notEmpty (xb_from body) from_msg)
      with (@nil string) by (symmetry; now apply check_notEmpty_nil).
    replace (check_custom (from_before_to (xb_from body) (xb_to body)) from_msg)
      with (@nil string)
      by (symmetry; apply check_custom_nil; now apply from_before_to_true).
    reflexivity.
  - exists (set_experience p (newExp fresh body :: experience p)),
      (newExp fresh body).
    split; [now apply put_experience_found|].
    repeat split. exact nt.
Qed.

Lemma put_experience_title_from_query_witness :
  exists p' e,
    put_experience
      (mkElsewhere (fun _ => None) (fun _ => None) (fun _ => None)
         (fun k => if String.eqb k "title" then Some "Engineer" else None))
      Sample.bob
      (mkExperienceBody None (Some "Acme") None (Some "2021-01-01") None None
         None)
      Sample.id3 [Sample.bob_profile]
    = (Ok (json 200 (JProfile (Some p'))), replace_doc p' [Sample.bob_profile])
    /\ experience p' = e :: experience Sample.bob_profile
    /\ exp_title e = None.
Proof.
  destruct (put_experience_title_from_query
              (mkElsewhere (fun _ => None) (fun _ => None) (fun _ => None)
                 (fun k => if String.eqb k "title" then Some "Engineer"
                           else None))
              Sample.bob Sample.id3
              (mkExperienceBody None (Some "Acme") None (Some "2021-01-01") None
                 None None)
              "Engineer" [Sample.bob_profile] Sample.bob_profile
              eq_refl eq_refl)
    as (_ & _ & p' & e & run & hexp & _ & ht & _);
    [discriminate | reflexivity | reflexivity | reflexivity | reflexivity
    | left; reflexivity | reflexivity |].
  exists p', e. split; [exact run|]. split; [exact hexp | exact ht].
Defined.
